(** * Reward engine: [RewardEngineService.calculatePointsPreview]

    A shallow embedding of the points calculator of
    [src/services/rewardEngineService.ts] and the properties its
    specification states about it.

    The calculator is TypeScript over the JavaScript [number] type, that
    is IEEE 754 binary64.  Numbers are therefore modelled with the
    executable binary64 operations of the Standard Library's [SpecFloat]
    (precision 53, exponent bound 1024, round to nearest even), which have
    [NaN], the two infinities and the two zeros.  The tier multiplier is
    read by a computed property name, so the read is modelled as
    JavaScript performs it: own properties first, then the members every
    object inherits from [Object.prototype]. *)

From Stdlib Require Import ZArith Bool List String Lia.
From Stdlib Require Import Floats.SpecFloat.

Import ListNotations.
Local Open Scope string_scope.
Local Open Scope Z_scope.

(** ** JavaScript numbers *)

Module JS.

Definition number : Type := spec_float.

Definition prec : Z := 53.
Definition emax : Z := 1024.

Definition NaN : number := S754_nan.
Definition Infinity : number := S754_infinity false.

(** The number denoted by an integer literal, and by [m * 2^e]. *)
Definition num_of_Z (z : Z) : number := binary_normalize prec emax z 0 false.
Definition dyadic (m e : Z) : number := binary_normalize prec emax m e false.

Definition zero : number := S754_zero false.

(** [x - y], [x * y], [x / y] *)
Definition sub (x y : number) : number := SFsub prec emax x y.
Definition mul (x y : number) : number := SFmul prec emax x y.
Definition div (x y : number) : number := SFdiv prec emax x y.

(** [x > y], [x < y], [x <= y], [x >= y]; all false on [NaN]. *)
Definition gt (x y : number) : bool := SFltb y x.
Definition lt (x y : number) : bool := SFltb x y.
Definition le (x y : number) : bool := SFleb x y.
Definition ge (x y : number) : bool := SFleb y x.

Definition is_nan (x : number) : bool :=
  match x with S754_nan => true | _ => false end.

Definition is_zero (x : number) : bool :=
  match x with S754_zero _ => true | _ => false end.

Definition is_finite (x : number) : bool :=
  match x with S754_zero _ | S754_finite _ _ _ => true | _ => false end.

(** A well-formed binary64 datum. *)
Definition valid (x : number) : bool := valid_binary prec emax x.

(** [Number.isInteger]: finite with no fractional bits. *)
Definition is_integer (x : number) : bool :=
  match x with
  | S754_zero _ => true
  | S754_finite _ m e => (0 <=? e) || (Zpos m mod 2 ^ (- e) =? 0)
  | _ => false
  end.

(** [Math.floor].  A finite number with a non-negative exponent is an
    integer already; otherwise the exact value [+/- m * 2^e] is floored and
    the integer obtained is a binary64 (it has at most 53 bits). *)
Definition Math_floor (x : number) : number :=
  match x with
  | S754_finite s m e =>
      if 0 <=? e then x
      else num_of_Z (cond_Zopp s (Zpos m) / 2 ^ (- e))
  | _ => x
  end.

(** [Math.max] and [Math.min] of two arguments: [NaN] if either is
    [NaN], and [-0] counts as smaller than [+0]. *)
Definition Math_max (x y : number) : number :=
  match x, y with
  | S754_nan, _ | _, S754_nan => S754_nan
  | S754_zero sx, S754_zero sy => S754_zero (sx && sy)
  | _, _ => if SFltb x y then y else x
  end.

Definition Math_min (x y : number) : number :=
  match x, y with
  | S754_nan, _ | _, S754_nan => S754_nan
  | S754_zero sx, S754_zero sy => S754_zero (sx || sy)
  | _, _ => if SFltb x y then x else y
  end.

(** Shapes of numbers used in the statements below. *)

(** [x > 0]: a positive finite number or [+Infinity]. *)
Definition positive_number (x : number) : bool :=
  match x with
  | S754_finite false _ _ | S754_infinity false => true
  | _ => false
  end.

(** [x < 0]: a negative finite number or [-Infinity]. *)
Definition negative_number (x : number) : bool :=
  match x with
  | S754_finite true _ _ | S754_infinity true => true
  | _ => false
  end.

(** An integer, or one of the non-finite numbers. *)
Definition integer_or_special (x : number) : bool :=
  is_integer x || negb (is_finite x).

(** A division that reports a zero divisor instead of producing an
    infinity or [NaN]; used to state that the guards of the calculator
    keep every divisor away from zero. *)
Definition checked_div (x y : number) : option number :=
  if is_zero y then None else Some (div x y).

Definition bind {A B : Type} (c : option A) (k : A -> option B) : option B :=
  match c with
  | Some a => k a
  | None => None
  end.

(** The values a property read of a record of numbers can produce: a
    number (own property), [undefined] (no such property), or a
    non-primitive inherited from [Object.prototype]. *)
Inductive value : Type :=
| VNumber (n : number)
| VUndefined
| VObject.

(** [ToBoolean]: [0], [-0], [NaN] and [undefined] are falsy. *)
Definition ToBoolean (v : value) : bool :=
  match v with
  | VNumber n => negb (is_zero n || is_nan n)
  | VUndefined => false
  | VObject => true
  end.

(** [ToNumber]: [undefined] is [NaN]; the members of [Object.prototype]
    are functions (and [__proto__] an object), whose string form is not
    a numeral, hence [NaN] as well. *)
Definition ToNumber (v : value) : number :=
  match v with
  | VNumber n => n
  | VUndefined => NaN
  | VObject => NaN
  end.

(** [a || b] *)
Definition or_else (a b : value) : value :=
  if ToBoolean a then a else b.

(** The property names every ordinary object inherits. *)
Definition Object_prototype_keys : list string :=
  [ "constructor"; "hasOwnProperty"; "isPrototypeOf";
    "propertyIsEnumerable"; "toLocaleString"; "toString"; "valueOf";
    "__proto__"; "__defineGetter__"; "__defineSetter__";
    "__lookupGetter__"; "__lookupSetter__" ].

Definition inherited (key : string) : bool :=
  existsb (String.eqb key) Object_prototype_keys.

End JS.

Import JS.

Notation "x <- c ;; k" := (bind c (fun x => k))
  (at level 61, c at next level, right associativity).

(** ** Data model *)

Record SmartSettings : Type := {
  cost_price : number;
  selling_price : number;
  profit_allocation_percent : number
}.

Record ManualSettings : Type := {
  aed_value : number;
  point_value : number
}.

Record TierMultipliers : Type := {
  bronze : number;
  silver : number;
  gold : number;
  platinum : number
}.

Inductive Mode : Type := smart | manual.

Record RewardEngineConfig : Type := {
  mode : Mode;
  smart_settings : SmartSettings;
  manual_settings : ManualSettings;
  tier_multipliers : TierMultipliers;
  max_points_per_order : number
}.

(** The four tier names. *)
Definition known_tier (t : string) : bool :=
  existsb (String.eqb t) ["bronze"; "silver"; "gold"; "platinum"].

(** [config.tier_multipliers[customerTier as keyof TierMultipliers]]: the
    cast is erased at run time, so this is a property read by an
    arbitrary string. *)
Definition tier_lookup (tm : TierMultipliers) (key : string) : value :=
  if String.eqb key "bronze" then VNumber (bronze tm)
  else if String.eqb key "silver" then VNumber (silver tm)
  else if String.eqb key "gold" then VNumber (gold tm)
  else if String.eqb key "platinum" then VNumber (platinum tm)
  else if inherited key then VObject
  else VUndefined.

(** ** The calculator *)

Module RewardEngineService.

(** The first [if]/[else]: base points by mode. *)
Definition basePoints (config : RewardEngineConfig) (orderAmount : number)
  : number :=
  match mode config with
  | smart =>
      let cost_price := cost_price (smart_settings config) in
      let selling_price := selling_price (smart_settings config) in
      let profit_allocation_percent :=
        profit_allocation_percent (smart_settings config) in
      if gt selling_price zero then
        let profit :=
          mul (sub selling_price cost_price) (div orderAmount selling_price) in
        let rewardValue :=
          mul profit (div profit_allocation_percent (num_of_Z 100)) in
        Math_floor rewardValue
      else zero
  | manual =>
      let aed_value := aed_value (manual_settings config) in
      let point_value := point_value (manual_settings config) in
      if gt aed_value zero then
        Math_floor (mul (div orderAmount aed_value) point_value)
      else zero
  end.

(** [config.tier_multipliers[customerTier] || 1.0] *)
Definition tierMultiplier (config : RewardEngineConfig)
    (customerTier : string) : value :=
  or_else (tier_lookup (tier_multipliers config) customerTier)
          (VNumber (num_of_Z 1)).

Definition finalPoints (config : RewardEngineConfig) (orderAmount : number)
    (customerTier : string) : number :=
  Math_floor (mul (basePoints config orderAmount)
                  (ToNumber (tierMultiplier config customerTier))).

Definition calculatePointsPreview (config : RewardEngineConfig)
    (orderAmount : number) (customerTier : string) : number :=
  Math_min (Math_max (finalPoints config orderAmount customerTier) zero)
           (max_points_per_order config).

(** The same computation with every division checked. *)
Definition basePoints_checked (config : RewardEngineConfig)
    (orderAmount : number) : option number :=
  match mode config with
  | smart =>
      let cost_price := cost_price (smart_settings config) in
      let selling_price := selling_price (smart_settings config) in
      let profit_allocation_percent :=
        profit_allocation_percent (smart_settings config) in
      if gt selling_price zero then
        q <- checked_div orderAmount selling_price ;;
        let profit := mul (sub selling_price cost_price) q in
        share <- checked_div profit_allocation_percent (num_of_Z 100) ;;
        let rewardValue := mul profit share in
        Some (Math_floor rewardValue)
      else Some zero
  | manual =>
      let aed_value := aed_value (manual_settings config) in
      let point_value := point_value (manual_settings config) in
      if gt aed_value zero then
        q <- checked_div orderAmount aed_value ;;
        Some (Math_floor (mul q point_value))
      else Some zero
  end.

Definition calculatePointsPreview_checked (config : RewardEngineConfig)
    (orderAmount : number) (customerTier : string) : option number :=
  basePoints <- basePoints_checked config orderAmount ;;
  let tierMultiplier := tierMultiplier config customerTier in
  let finalPoints := Math_floor (mul basePoints (ToNumber tierMultiplier)) in
  Some (Math_min (Math_max finalPoints zero) (max_points_per_order config)).

(** The call with [customerTier] omitted. *)
Definition calculatePointsPreview_default (config : RewardEngineConfig)
    (orderAmount : number) : number :=
  calculatePointsPreview config orderAmount "bronze".

Definition getDefaultConfig : RewardEngineConfig :=
  {| mode := manual;
     smart_settings :=
       {| cost_price := num_of_Z 0;
          selling_price := num_of_Z 0;
          profit_allocation_percent := num_of_Z 20 |};
     manual_settings :=
       {| aed_value := num_of_Z 10; point_value := num_of_Z 1 |};
     tier_multipliers :=
       {| bronze := num_of_Z 1;
          silver := dyadic 5 (-2);
          gold := dyadic 3 (-1);
          platinum := num_of_Z 2 |};
     max_points_per_order := num_of_Z 1000 |}.

End RewardEngineService.

Import RewardEngineService.

(** ** Configurations that differ in one field *)

Definition with_manual_settings (c : RewardEngineConfig) (ms : ManualSettings)
  : RewardEngineConfig :=
  {| mode := mode c;
     smart_settings := smart_settings c;
     manual_settings := ms;
     tier_multipliers := tier_multipliers c;
     max_points_per_order := max_points_per_order c |}.

Definition with_smart_settings (c : RewardEngineConfig) (ss : SmartSettings)
  : RewardEngineConfig :=
  {| mode := mode c;
     smart_settings := ss;
     manual_settings := manual_settings c;
     tier_multipliers := tier_multipliers c;
     max_points_per_order := max_points_per_order c |}.

Definition with_max_points (c : RewardEngineConfig) (m : number)
  : RewardEngineConfig :=
  {| mode := mode c;
     smart_settings := smart_settings c;
     manual_settings := manual_settings c;
     tier_multipliers := tier_multipliers c;
     max_points_per_order := m |}.

(** [{...tm, [tier]: multiplier}] for one of the four tiers. *)
Definition set_tier (tm : TierMultipliers) (tier : string) (multiplier : number)
  : TierMultipliers :=
  {| bronze := if String.eqb tier "bronze" then multiplier else bronze tm;
     silver := if String.eqb tier "silver" then multiplier else silver tm;
     gold := if String.eqb tier "gold" then multiplier else gold tm;
     platinum := if String.eqb tier "platinum" then multiplier else platinum tm |}.

Definition with_tier_multiplier (c : RewardEngineConfig) (tier : string)
    (multiplier : number) : RewardEngineConfig :=
  {| mode := mode c;
     smart_settings := smart_settings c;
     manual_settings := manual_settings c;
     tier_multipliers := set_tier (tier_multipliers c) tier multiplier;
     max_points_per_order := max_points_per_order c |}.

(** Every field is a binary64 datum. *)
Definition valid_config (c : RewardEngineConfig) : bool :=
  valid (cost_price (smart_settings c))
  && valid (selling_price (smart_settings c))
  && valid (profit_allocation_percent (smart_settings c))
  && valid (aed_value (manual_settings c))
  && valid (point_value (manual_settings c))
  && valid (bronze (tier_multipliers c))
  && valid (silver (tier_multipliers c))
  && valid (gold (tier_multipliers c))
  && valid (platinum (tier_multipliers c))
  && valid (max_points_per_order c).

(** ** Side conditions of the amended statements *)

(** The points earned per unit of currency are not negative. *)
Definition nonneg_rate (c : RewardEngineConfig) : bool :=
  match mode c with
  | smart =>
      le zero (sub (selling_price (smart_settings c))
                   (cost_price (smart_settings c)))
      && le zero (profit_allocation_percent (smart_settings c))
  | manual => le zero (point_value (manual_settings c))
  end.

(** The factors the order amount is multiplied by are finite. *)
Definition finite_factors (c : RewardEngineConfig) (customerTier : string)
  : bool :=
  match mode c with
  | smart =>
      is_finite (sub (selling_price (smart_settings c))
                     (cost_price (smart_settings c)))
      && is_finite (div (profit_allocation_percent (smart_settings c))
                        (num_of_Z 100))
  | manual => is_finite (point_value (manual_settings c))
  end
  && is_finite (ToNumber (tierMultiplier c customerTier)).

(** ** Sample configurations *)

Definition smart_config (cost selling percent max : number)
  : RewardEngineConfig :=
  {| mode := smart;
     smart_settings :=
       {| cost_price := cost;
          selling_price := selling;
          profit_allocation_percent := percent |};
     manual_settings := manual_settings getDefaultConfig;
     tier_multipliers := tier_multipliers getDefaultConfig;
     max_points_per_order := max |}.

Definition manual_config (aed point max : number) : RewardEngineConfig :=
  {| mode := manual;
     smart_settings := smart_settings getDefaultConfig;
     manual_settings := {| aed_value := aed; point_value := point |};
     tier_multipliers := tier_multipliers getDefaultConfig;
     max_points_per_order := max |}.

(** ** More of JavaScript: addition, [Math.abs], [Math.ceil], arrays *)

Module JSExt.

(** [x + y] on numbers *)
Definition add (x y : number) : number := SFadd prec emax x y.

Definition Math_abs (x : number) : number := SFabs x.

(** [Math.ceil(x)] is [-Math.floor(-x)], signs of zero included. *)
Definition Math_ceil (x : number) : number := SFopp (Math_floor (SFopp x)).

(** [x || d] where [x] is a number *)
Definition number_or (x d : number) : number :=
  ToNumber (or_else (VNumber x) (VNumber d)).

(** [v || d] where [v] may be [undefined], used as a number *)
Definition value_or (v : value) (d : number) : number :=
  ToNumber (or_else v (VNumber d)).

(** [l?.f(...)]: [undefined] when the array is [null]. *)
Definition opt_chain {A : Type} (l : option (list A)) (f : list A -> number)
  : value :=
  match l with
  | Some l => VNumber (f l)
  | None => VUndefined
  end.

(** [l.reduce((sum, a) => sum + f(a), 0)] *)
Definition sum_by {A : Type} (f : A -> number) (l : list A) : number :=
  fold_left (fun sum a => add sum (f a)) l zero.

(** [l.length] *)
Definition count {A : Type} (l : list A) : number :=
  num_of_Z (Z.of_nat (List.length l)).

(** The literal [0.3]: the binary64 nearest to three tenths. *)
Definition lit_0_3 : number := S754_finite false 5404319552844595 (-54).

End JSExt.

Import JSExt.

(** ** The service over the state it shares with its callers

    What a call can observe or change besides its arguments: the
    configuration objects, passed by reference and shared with the
    caller; what has been printed to the console; and what the database
    answers to the points procedure. *)

Module Stateful.

Definition ref : Type := nat.

Record RpcReply : Type := {
  rpc_data : value;
  rpc_error : bool
}.

Record World : Type := {
  heap : ref -> RewardEngineConfig;
  console : list string;
  remote : string -> number -> string -> RpcReply
}.

(** Computations that may read and change the world. *)
Definition M (A : Type) : Type := World -> A * World.

Definition ret {A : Type} (a : A) : M A := fun w => (a, w).

Definition bindM {A B : Type} (c : M A) (k : A -> M B) : M B :=
  fun w => let (a, w') := c w in k a w'.

(** [config.field]: a read through the reference. *)
Definition read {A : Type} (config : ref) (field : RewardEngineConfig -> A)
  : M A :=
  fun w => (field (heap w config), w).

(** [console.error(msg, ...)] *)
Definition console_error (msg : string) : M unit :=
  fun w => (tt, {| heap := heap w;
                   console := msg :: console w;
                   remote := remote w |}).

(** [await supabase.rpc('calculate_points_for_order', ...)] *)
Definition rpc (restaurantId : string) (orderAmount : number)
    (customerTier : string) : M RpcReply :=
  fun w => (remote w restaurantId orderAmount customerTier, w).

(** [calculatePointsPreview], statement by statement. *)
Definition calculatePointsPreview (config : ref) (orderAmount : number)
    (customerTier : string) : M number :=
  bindM (read config mode) (fun mode =>
  bindM
    (match mode with
     | smart =>
         bindM (read config smart_settings) (fun smart_settings =>
         let cost_price := cost_price smart_settings in
         let selling_price := selling_price smart_settings in
         let profit_allocation_percent :=
           profit_allocation_percent smart_settings in
         if gt selling_price zero then
           let profit :=
             mul (sub selling_price cost_price)
                 (div orderAmount selling_price) in
           let rewardValue :=
             mul profit (div profit_allocation_percent (num_of_Z 100)) in
           ret (Math_floor rewardValue)
         else ret zero)
     | manual =>
         bindM (read config manual_settings) (fun manual_settings =>
         let aed_value := aed_value manual_settings in
         let point_value := point_value manual_settings in
         if gt aed_value zero then
           ret (Math_floor (mul (div orderAmount aed_value) point_value))
         else ret zero)
     end) (fun basePoints =>
  bindM (read config tier_multipliers) (fun tier_multipliers =>
  let tierMultiplier :=
    or_else (tier_lookup tier_multipliers customerTier)
            (VNumber (num_of_Z 1)) in
  let finalPoints := Math_floor (mul basePoints (ToNumber tierMultiplier)) in
  bindM (read config max_points_per_order) (fun max_points_per_order =>
  ret (Math_min (Math_max finalPoints zero) max_points_per_order))))).

(** [calculatePointsForOrder]: the sibling that asks the database; a
    reported error is thrown, caught, printed, and answered with 0. *)
Definition calculatePointsForOrder (restaurantId : string)
    (orderAmount : number) (customerTier : string) : M value :=
  bindM (rpc restaurantId orderAmount customerTier) (fun reply =>
  if rpc_error reply then
    bindM (console_error "Error calculating points:") (fun _ =>
    ret (VNumber zero))
  else ret (or_else (rpc_data reply) (VNumber zero))).

(** Two worlds for the examples: they hold the same configuration
    objects and differ in everything else. *)
Definition quiet_world : World :=
  {| heap := fun _ => getDefaultConfig;
     console := [];
     remote := fun _ _ _ =>
       {| rpc_data := VNumber (num_of_Z 9); rpc_error := false |} |}.

Definition failing_world : World :=
  {| heap := fun _ => getDefaultConfig;
     console := ["earlier message"];
     remote := fun _ _ _ => {| rpc_data := VUndefined; rpc_error := true |} |}.

End Stateful.

(** ** The settings page, [RewardEngineSettings]

    The component keeps [config : RewardEngineConfig | null] in its state;
    each function below is the state transformer its [setConfig] call
    performs. *)

Module RewardEngineSettings.

(** [Partial<RewardEngineConfig>] and the partial settings records: a key
    is present ([Some]) or absent. *)
Record PartialConfig : Type := {
  p_mode : option Mode;
  p_smart_settings : option SmartSettings;
  p_manual_settings : option ManualSettings;
  p_tier_multipliers : option TierMultipliers;
  p_max_points_per_order : option number
}.

Record PartialSmartSettings : Type := {
  p_cost_price : option number;
  p_selling_price : option number;
  p_profit_allocation_percent : option number
}.

Record PartialManualSettings : Type := {
  p_aed_value : option number;
  p_point_value : option number
}.

(** One key of [{...old, ...updates}]. *)
Definition spread {A : Type} (old : A) (update : option A) : A :=
  match update with
  | Some a => a
  | None => old
  end.

Definition no_updates : PartialConfig :=
  {| p_mode := None;
     p_smart_settings := None;
     p_manual_settings := None;
     p_tier_multipliers := None;
     p_max_points_per_order := None |}.

Definition updateConfig (updates : PartialConfig)
    (config : option RewardEngineConfig) : option RewardEngineConfig :=
  match config with
  | None => None
  | Some config =>
      Some {| mode := spread (mode config) (p_mode updates);
              smart_settings :=
                spread (smart_settings config) (p_smart_settings updates);
              manual_settings :=
                spread (manual_settings config) (p_manual_settings updates);
              tier_multipliers :=
                spread (tier_multipliers config) (p_tier_multipliers updates);
              max_points_per_order :=
                spread (max_points_per_order config)
                       (p_max_points_per_order updates) |}
  end.

Definition updateSmartSettings (updates : PartialSmartSettings)
    (config : option RewardEngineConfig) : option RewardEngineConfig :=
  match config with
  | None => None
  | Some config =>
      let old := smart_settings config in
      Some (with_smart_settings config
              {| cost_price := spread (cost_price old) (p_cost_price updates);
                 selling_price :=
                   spread (selling_price old) (p_selling_price updates);
                 profit_allocation_percent :=
                   spread (profit_allocation_percent old)
                          (p_profit_allocation_percent updates) |})
  end.

Definition updateManualSettings (updates : PartialManualSettings)
    (config : option RewardEngineConfig) : option RewardEngineConfig :=
  match config with
  | None => None
  | Some config =>
      let old := manual_settings config in
      Some (with_manual_settings config
              {| aed_value := spread (aed_value old) (p_aed_value updates);
                 point_value :=
                   spread (point_value old) (p_point_value updates) |})
  end.

(** [{...config.tier_multipliers, [tier]: multiplier}].  The component
    calls it with the keys of [Object.entries(config.tier_multipliers)],
    the four tiers; for those [set_tier] is the computed-key update. *)
Definition updateTierMultipliers (tier : string) (multiplier : number)
    (config : option RewardEngineConfig) : option RewardEngineConfig :=
  match config with
  | None => None
  | Some config => Some (with_tier_multiplier config tier multiplier)
  end.

Definition getPreviewPoints (config : option RewardEngineConfig)
    (previewAmount : number) (previewTier : string) : number :=
  match config with
  | None => zero
  | Some config => calculatePointsPreview config previewAmount previewTier
  end.

(** The [onChange] handlers of the inputs; [parsed] is what
    [parseFloat(e.target.value)] (for the maximum, [parseInt]) returned. *)
Definition onModeClick (m : Mode) :=
  updateConfig {| p_mode := Some m;
                  p_smart_settings := None;
                  p_manual_settings := None;
                  p_tier_multipliers := None;
                  p_max_points_per_order := None |}.

Definition onCostPriceChange (parsed : number) :=
  updateSmartSettings {| p_cost_price := Some (number_or parsed zero);
                         p_selling_price := None;
                         p_profit_allocation_percent := None |}.

Definition onSellingPriceChange (parsed : number) :=
  updateSmartSettings {| p_cost_price := None;
                         p_selling_price := Some (number_or parsed zero);
                         p_profit_allocation_percent := None |}.

Definition onProfitAllocationChange (parsed : number) :=
  updateSmartSettings {| p_cost_price := None;
                         p_selling_price := None;
                         p_profit_allocation_percent :=
                           Some (number_or parsed zero) |}.

Definition onAedValueChange (parsed : number) :=
  updateManualSettings {| p_aed_value := Some (number_or parsed (num_of_Z 1));
                          p_point_value := None |}.

Definition onPointValueChange (parsed : number) :=
  updateManualSettings {| p_aed_value := None;
                          p_point_value := Some (number_or parsed zero) |}.

Definition onMaxPointsChange (parsed : number) :=
  updateConfig {| p_mode := None;
                  p_smart_settings := None;
                  p_manual_settings := None;
                  p_tier_multipliers := None;
                  p_max_points_per_order :=
                    Some (number_or parsed (num_of_Z 1000)) |}.

Definition onTierMultiplierChange (tier : string) (parsed : number) :=
  updateTierMultipliers tier (number_or parsed (num_of_Z 1)).

(** What the [restaurants] query of [getRewardEngineConfig] resolved to:
    an error, or [data] whose [settings] and [reward_engine] may each be
    missing. *)
Record SettingsRow : Type := {
  reward_engine : option RewardEngineConfig
}.

Record RestaurantRow : Type := {
  settings : option SettingsRow
}.

Record QueryResult : Type := {
  data : option RestaurantRow;
  error : bool
}.

(** [RewardEngineService.getRewardEngineConfig]: [throw error] is caught
    and gives [null]; otherwise [data?.settings?.reward_engine || null]. *)
Definition getRewardEngineConfig (r : QueryResult)
  : option RewardEngineConfig :=
  if error r then None
  else
    match data r with
    | None => None
    | Some row =>
        match settings row with
        | None => None
        | Some s => reward_engine s
        end
    end.

(** The state of the page that [fetchConfig] touches: [config],
    [loading] and [error]; a fresh page has [config = null]. *)
Record PageState : Type := {
  page_config : option RewardEngineConfig;
  page_loading : bool;
  page_error : string
}.

(** [restaurant] of [useAuth()], with its [id]. *)
Record Restaurant : Type := {
  restaurant_id : string
}.

(** How [await RewardEngineService.getRewardEngineConfig(restaurant.id)]
    ends: it resolves with a configuration or [null], or it rejects with
    an error whose [message] may be missing. *)
Inductive Outcome : Type :=
| Resolved (engineConfig : option RewardEngineConfig)
| Rejected (message : option string).

(** [err.message || 'Failed to load configuration'] *)
Definition message_or_default (message : option string) : string :=
  match message with
  | Some m => if String.eqb m "" then "Failed to load configuration" else m
  | None => "Failed to load configuration"
  end.

(** [fetchConfig]: nothing without a restaurant; otherwise
    [setConfig(engineConfig || getDefaultConfig())] when the awaited call
    resolves, [setError(err.message || ...)] when it rejects, and
    [setLoading(false)] in both cases.  [service] is the awaited call. *)
Definition fetchConfig (restaurant : option Restaurant)
    (service : string -> Outcome) (s : PageState) : PageState :=
  match restaurant with
  | None => s
  | Some r =>
      match service (restaurant_id r) with
      | Resolved engineConfig =>
          {| page_config :=
               Some (match engineConfig with
                     | Some c => c
                     | None => getDefaultConfig
                     end);
             page_loading := false;
             page_error := page_error s |}
      | Rejected message =>
          {| page_config := page_config s;
             page_loading := false;
             page_error := message_or_default message |}
      end
  end.

(** The awaited call as the service performs it: [db] is what the
    [restaurants] query resolves to for an id, and
    [getRewardEngineConfig] catches every error, so it always resolves. *)
Definition awaitRewardEngineConfig (db : string -> QueryResult)
    (restaurantId : string) : Outcome :=
  Resolved (getRewardEngineConfig (db restaurantId)).

(** The state of a page that has just been mounted. *)
Definition fresh_page : PageState :=
  {| page_config := None; page_loading := true; page_error := "" |}.

End RewardEngineSettings.

Import RewardEngineSettings.

(** ** The analytics service, [LoyaltyAnalyticsService]

    The metrics are computed from the rows three queries return; the
    rows are the inputs here, and an exception inside the [try] block is
    the input [None]. *)

Module LoyaltyAnalyticsService.

Record Customer : Type := {
  total_points : number;
  lifetime_points : number;
  total_spent : number;
  visit_count : number
}.

Record Transaction : Type := {
  points : number
}.

(** The keys of [restaurant.settings] the service reads; each may be
    missing. *)
Record AnalyticsSettings : Type := {
  points_per_dollar : value;
  cogs_percentage : value;
  customer_lifetime_months : value
}.

(** [restaurant?.settings?.key] *)
Definition setting (restaurant : option AnalyticsSettings)
    (key : AnalyticsSettings -> value) : value :=
  match restaurant with
  | Some s => key s
  | None => VUndefined
  end.

Record Fetched : Type := {
  restaurant : option AnalyticsSettings;
  customers : option (list Customer);
  transactions : option (list Transaction)
}.

Inductive RoiStatus : Type := high_performing | profitable | losing_money.

(** The three summary texts; the first carries the number printed with
    [toFixed(2)]. *)
Inductive RoiSummaryText : Type :=
| EarnPerAED (roiMultiplier : number)
| NoRedemptionsYet
| NoDataYet.

Record LoyaltyROIMetrics : Type := {
  roi : number;
  roiStatus : RoiStatus;
  roiSummaryText : RoiSummaryText;
  grossRevenue : number;
  rewardCost : number;
  netRevenue : number;
  cogs : number;
  netProfit : number;
  totalRewardLiability : number;
  repeatPurchaseRate : number;
  averageOrderValue : number;
  loyaltyAOV : number;
  purchaseFrequency : number;
  customerLifetimeValue : number;
  totalPointsIssued : number;
  totalPointsRedeemed : number;
  activeCustomers : number;
  loyaltyCustomers : number
}.

Definition getEmptyMetrics : LoyaltyROIMetrics :=
  {| roi := zero;
     roiStatus := profitable;
     roiSummaryText := NoDataYet;
     grossRevenue := zero;
     rewardCost := zero;
     netRevenue := zero;
     cogs := zero;
     netProfit := zero;
     totalRewardLiability := zero;
     repeatPurchaseRate := zero;
     averageOrderValue := zero;
     loyaltyAOV := zero;
     purchaseFrequency := zero;
     customerLifetimeValue := zero;
     totalPointsIssued := zero;
     totalPointsRedeemed := zero;
     activeCustomers := zero;
     loyaltyCustomers := zero |}.

(** [1 / (restaurant?.settings?.points_per_dollar || 1)] *)
Definition pointValueAED (restaurant : option AnalyticsSettings) : number :=
  div (num_of_Z 1)
      (ToNumber (or_else (setting restaurant points_per_dollar)
                         (VNumber (num_of_Z 1)))).

Definition cogsPercentage (restaurant : option AnalyticsSettings) : number :=
  value_or (setting restaurant cogs_percentage) lit_0_3.

Definition customerLifetimeMonths (restaurant : option AnalyticsSettings)
  : number :=
  value_or (setting restaurant customer_lifetime_months) (num_of_Z 12).

(** [c => c.visit_count > 1] *)
Definition returning (c : Customer) : bool := gt (visit_count c) (num_of_Z 1).

(** The body of the [try] block of [getLoyaltyROIMetrics]; [start_time]
    and [end_time] are [dateRange.start.getTime()] and
    [dateRange.end.getTime()]. *)
Definition computeROIMetrics (start_time end_time : number) (db : Fetched)
  : LoyaltyROIMetrics :=
  let pointValueAED := pointValueAED (restaurant db) in
  let totalPointsIssued :=
    value_or
      (opt_chain (transactions db)
         (fun ts => sum_by points
                      (filter (fun t => gt (points t) zero) ts)))
      zero in
  let totalPointsRedeemed :=
    value_or
      (opt_chain (transactions db)
         (fun ts => sum_by (fun t => Math_abs (points t))
                      (filter (fun t => lt (points t) zero) ts)))
      zero in
  let grossRevenue :=
    value_or (opt_chain (customers db) (sum_by total_spent)) zero in
  let rewardCost := mul totalPointsRedeemed pointValueAED in
  let netRevenue := sub grossRevenue rewardCost in
  let cogsPercentage := cogsPercentage (restaurant db) in
  let cogs := mul grossRevenue cogsPercentage in
  let netProfit := sub netRevenue cogs in
  let roi :=
    if gt rewardCost zero
    then mul (div netProfit rewardCost) (num_of_Z 100)
    else zero in
  let roiStatus :=
    if gt roi (num_of_Z 100) then high_performing
    else if ge roi zero then profitable
    else losing_money in
  let roiMultiplier :=
    if gt rewardCost zero then div netProfit rewardCost else zero in
  let roiSummaryText :=
    if gt rewardCost zero then EarnPerAED roiMultiplier
    else NoRedemptionsYet in
  let totalRewardLiability :=
    number_or
      (mul (ToNumber (opt_chain (customers db) (sum_by total_points)))
           pointValueAED)
      zero in
  let activeCustomers :=
    value_or (opt_chain (customers db) (fun cs => count cs)) zero in
  let loyaltyCustomers :=
    value_or (opt_chain (customers db)
                (fun cs => count (filter returning cs))) zero in
  let repeatPurchaseRate :=
    if gt activeCustomers zero
    then mul (div loyaltyCustomers activeCustomers) (num_of_Z 100)
    else zero in
  let totalOrders :=
    value_or (opt_chain (customers db) (sum_by visit_count)) zero in
  let averageOrderValue :=
    if gt totalOrders zero then div grossRevenue totalOrders else zero in
  let loyaltyOrderValue :=
    if gt loyaltyCustomers zero
    then div (ToNumber
                (opt_chain (customers db)
                   (fun cs => sum_by total_spent (filter returning cs))))
             loyaltyCustomers
    else zero in
  let monthsInRange :=
    Math_max (num_of_Z 1)
             (Math_ceil (div (sub end_time start_time)
                             (num_of_Z (1000 * 60 * 60 * 24 * 30)))) in
  let purchaseFrequency :=
    if gt activeCustomers zero
    then div (div totalOrders activeCustomers) monthsInRange
    else zero in
  let customerLifetimeMonths := customerLifetimeMonths (restaurant db) in
  let customerLifetimeValue :=
    mul (mul averageOrderValue purchaseFrequency) customerLifetimeMonths in
  {| roi := roi;
     roiStatus := roiStatus;
     roiSummaryText := roiSummaryText;
     grossRevenue := grossRevenue;
     rewardCost := rewardCost;
     netRevenue := netRevenue;
     cogs := cogs;
     netProfit := netProfit;
     totalRewardLiability := totalRewardLiability;
     repeatPurchaseRate := repeatPurchaseRate;
     averageOrderValue := averageOrderValue;
     loyaltyAOV := loyaltyOrderValue;
     purchaseFrequency := purchaseFrequency;
     customerLifetimeValue := customerLifetimeValue;
     totalPointsIssued := totalPointsIssued;
     totalPointsRedeemed := totalPointsRedeemed;
     activeCustomers := activeCustomers;
     loyaltyCustomers := loyaltyCustomers |}.

Definition getLoyaltyROIMetrics (restaurantId : string)
    (start_time end_time : number) (fetched : option Fetched)
  : LoyaltyROIMetrics :=
  if String.eqb restaurantId "" then getEmptyMetrics
  else
    match fetched with
    | Some db => computeROIMetrics start_time end_time db
    | None => getEmptyMetrics
    end.

Record CustomerBehaviorMetrics : Type := {
  newCustomers : number;
  returningCustomers : number;
  loyaltyParticipation : number;
  averagePointsEarned : number;
  averagePointsRedeemed : number
}.

Definition emptyBehaviorMetrics : CustomerBehaviorMetrics :=
  {| newCustomers := zero;
     returningCustomers := zero;
     loyaltyParticipation := zero;
     averagePointsEarned := zero;
     averagePointsRedeemed := zero |}.

(** [c => c.visit_count === 1] *)
Definition first_visit (c : Customer) : bool :=
  SFeqb (visit_count c) (num_of_Z 1).

Definition getCustomerBehaviorMetrics (restaurantId : string)
    (fetched : option (option (list Customer))) : CustomerBehaviorMetrics :=
  if String.eqb restaurantId "" then emptyBehaviorMetrics
  else
    match fetched with
    | None => emptyBehaviorMetrics
    | Some customers =>
        let newCustomers :=
          value_or (opt_chain customers
                      (fun cs => count (filter first_visit cs))) zero in
        let returningCustomers :=
          value_or (opt_chain customers
                      (fun cs => count (filter returning cs))) zero in
        let totalCustomers :=
          value_or (opt_chain customers (fun cs => count cs)) zero in
        let loyaltyParticipation :=
          if gt totalCustomers zero
          then mul (div returningCustomers totalCustomers) (num_of_Z 100)
          else zero in
        let averagePointsEarned :=
          if gt totalCustomers zero
          then div (ToNumber (opt_chain customers (sum_by lifetime_points)))
                   totalCustomers
          else zero in
        let averagePointsRedeemed :=
          if gt totalCustomers zero
          then div (ToNumber
                      (opt_chain customers
                         (sum_by (fun c => sub (lifetime_points c)
                                               (total_points c)))))
                   totalCustomers
          else zero in
        {| newCustomers := newCustomers;
           returningCustomers := returningCustomers;
           loyaltyParticipation := loyaltyParticipation;
           averagePointsEarned := averagePointsEarned;
           averagePointsRedeemed := averagePointsRedeemed |}
    end.

End LoyaltyAnalyticsService.

Import LoyaltyAnalyticsService.

(** ** Side conditions of the further properties *)

(** The divisor of the active mode passes its guard. *)
Definition divisor_guard (c : RewardEngineConfig) : bool :=
  match mode c with
  | smart => gt (selling_price (smart_settings c)) zero
  | manual => gt (aed_value (manual_settings c)) zero
  end.

(** The points earned per unit of currency are not positive. *)
Definition nonpos_rate (c : RewardEngineConfig) : bool :=
  match mode c with
  | smart =>
      le (sub (selling_price (smart_settings c))
              (cost_price (smart_settings c))) zero
      && le zero (profit_allocation_percent (smart_settings c))
  | manual => le (point_value (manual_settings c)) zero
  end.


(** No rows: the query returned [null] or an empty array. *)
Definition no_rows {A : Type} (rows : option (list A)) : bool :=
  match rows with
  | None | Some [] => true
  | Some (_ :: _) => false
  end.

(** No transaction has negative points. *)
Definition nothing_redeemed (ts : option (list Transaction)) : bool :=
  match ts with
  | None => true
  | Some ts => forallb (fun t => negb (lt (points t) zero)) ts
  end.

(** ** The number model on examples *)

Section Examples.

Example literals :
  num_of_Z 10 = S754_finite false 5629499534213120 (-49)
  /\ dyadic 5 (-2) = S754_finite false 5629499534213120 (-52)
  /\ valid (num_of_Z 10) = true
  /\ div (num_of_Z 20) (num_of_Z 100)
     = S754_finite false 7205759403792794 (-55).
Proof. vm_compute. repeat split. Qed.

Example arithmetic :
  div (num_of_Z 95) (num_of_Z 10) = dyadic 19 (-1)
  /\ mul (num_of_Z 9) (dyadic 5 (-2)) = dyadic 45 (-2)
  /\ mul (num_of_Z 50) (div (num_of_Z 20) (num_of_Z 100)) = num_of_Z 10
  /\ div (num_of_Z 1) zero = Infinity
  /\ mul zero Infinity = NaN
  /\ sub Infinity Infinity = NaN.
Proof. vm_compute. repeat split. Qed.

Example Math_floor_examples :
  Math_floor (dyadic 19 (-1)) = num_of_Z 9
  /\ Math_floor (dyadic 45 (-2)) = num_of_Z 11
  /\ Math_floor (dyadic 1 (-1)) = zero
  /\ Math_floor (dyadic (-1) (-1)) = num_of_Z (-1)
  /\ Math_floor (dyadic (-7) (-1)) = num_of_Z (-4)
  /\ Math_floor (S754_zero true) = S754_zero true
  /\ Math_floor (dyadic 1 1023) = dyadic 1 1023
  /\ Math_floor Infinity = Infinity
  /\ Math_floor NaN = NaN.
Proof. vm_compute. repeat split. Qed.

Example Math_max_min_examples :
  Math_max (S754_zero true) zero = zero
  /\ Math_max (num_of_Z (-3)) zero = zero
  /\ Math_max NaN zero = NaN
  /\ Math_min (num_of_Z 1200) (num_of_Z 1000) = num_of_Z 1000
  /\ Math_min Infinity (num_of_Z 1000) = num_of_Z 1000
  /\ Math_min NaN (num_of_Z 1000) = NaN.
Proof. vm_compute. repeat split. Qed.

Example or_else_examples :
  or_else (VNumber (dyadic 5 (-2))) (VNumber (num_of_Z 1))
  = VNumber (dyadic 5 (-2))
  /\ or_else (VNumber zero) (VNumber (num_of_Z 1)) = VNumber (num_of_Z 1)
  /\ or_else (VNumber NaN) (VNumber (num_of_Z 1)) = VNumber (num_of_Z 1)
  /\ or_else VUndefined (VNumber (num_of_Z 1)) = VNumber (num_of_Z 1)
  /\ or_else VObject (VNumber (num_of_Z 1)) = VObject.
Proof. vm_compute. repeat split. Qed.

Example tier_lookup_examples :
  tier_lookup (tier_multipliers getDefaultConfig) "silver"
  = VNumber (dyadic 5 (-2))
  /\ tier_lookup (tier_multipliers getDefaultConfig) "diamond" = VUndefined
  /\ tier_lookup (tier_multipliers getDefaultConfig) "toString" = VObject.
Proof. vm_compute. repeat split. Qed.

End Examples.

(** Case analysis on the shape of a number (zero, infinity, [NaN],
    finite), with the sign of infinities and of finite numbers split. *)
Ltac by_shape x :=
  destruct x as [?|[]| |[] ? ?]; try discriminate; try reflexivity.

(** ** Order facts on numbers *)

Section Comparison.

Lemma SFcompare_antisym (x y : number) :
  SFcompare y x = option_map CompOpp (SFcompare x y).
Proof.
  destruct x as [sx|sx| |sx mx ex], y as [sy|sy| |sy my ey]; simpl;
    try destruct sx; try destruct sy; simpl; try reflexivity;
    rewrite (Z.compare_antisym ex ey);
    destruct (ex ?= ey); simpl; try reflexivity;
    change (PosDef.Pos.compare_cont Eq my mx) with (Pos.compare my mx);
    change (PosDef.Pos.compare_cont Eq mx my) with (Pos.compare mx my);
    rewrite (Pos.compare_antisym mx my); reflexivity.
Qed.

Lemma SFcompare_refl (x : number) :
  is_nan x = false -> SFcompare x x = Some Eq.
Proof.
  destruct x as [s|s| |s m e]; simpl; try discriminate;
    destruct s; try reflexivity; intros _;
    rewrite Z.compare_refl;
    change (PosDef.Pos.compare_cont Eq m m) with (Pos.compare m m);
    now rewrite Pos.compare_refl.
Qed.

Lemma SFcompare_Eq_finite sx mx ex sy my ey :
  SFcompare (S754_finite sx mx ex) (S754_finite sy my ey) = Some Eq ->
  S754_finite sx mx ex = S754_finite sy my ey.
Proof.
  simpl. destruct sx, sy; try discriminate;
    destruct (ex ?= ey) eqn:He; try discriminate;
    apply Z.compare_eq in He; subst ey;
    change (PosDef.Pos.compare_cont Eq mx my) with (Pos.compare mx my);
    destruct (mx ?= my)%positive eqn:Hm;
    try discriminate; apply Pos.compare_eq in Hm; now subst.
Qed.

Lemma lt_asym (x y : number) : lt x y = true -> lt y x = false.
Proof.
  unfold lt, SFltb. rewrite (SFcompare_antisym x y).
  destruct (SFcompare x y) as [[]|]; simpl; congruence.
Qed.

Lemma lt_le (x y : number) : lt x y = true -> le x y = true.
Proof.
  unfold lt, le, SFltb, SFleb. destruct (SFcompare x y) as [[]|]; congruence.
Qed.

Lemma le_refl (x : number) : is_nan x = false -> le x x = true.
Proof. intros H. unfold le, SFleb. now rewrite SFcompare_refl. Qed.

Lemma gt_zero_positive (x : number) : gt x zero = positive_number x.
Proof. by_shape x. Qed.

Lemma ge_positive (x y : number) :
  positive_number x = true -> ge y x = true -> positive_number y = true.
Proof.
  destruct x as [sx|[]| |[] mx ex]; try discriminate; intros _;
    destruct y as [sy|[]| |[] my ey]; simpl; try reflexivity;
    unfold ge, SFleb; simpl; congruence.
Qed.

Lemma gt_positive (x y : number) :
  positive_number x = true -> gt y x = true -> positive_number y = true.
Proof.
  intros Hx H. apply (ge_positive x y Hx). unfold ge. now apply lt_le.
Qed.

Lemma positive_not_nan (x : number) :
  positive_number x = true -> is_nan x = false.
Proof. by_shape x. Qed.

Lemma le_zero_positive (x : number) :
  positive_number x = true -> le zero x = true.
Proof. by_shape x. Qed.

End Comparison.

(** ** The clamp [Math.min(Math.max(p, 0), max)] *)

Section Clamp.

Lemma Math_max_zero_cases (p : number) :
  is_nan p = false ->
  (Math_max p zero = zero /\ le p zero = true) \/
  (Math_max p zero = p /\ positive_number p = true).
Proof.
  destruct p as [s|[]| |[] m e]; simpl; try discriminate; intros _;
    try (left; split; [now rewrite ?andb_false_r | reflexivity]);
    right; split; reflexivity.
Qed.

Lemma Math_min_zero (y : number) :
  positive_number y = true -> Math_min zero y = zero.
Proof. by_shape y. Qed.

Lemma Math_min_positive (x y : number) :
  positive_number x = true -> positive_number y = true ->
  Math_min x y = (if lt x y then x else y).
Proof.
  destruct x as [sx|[]| |[] mx ex]; try discriminate; intros _;
    destruct y as [sy|[]| |[] my ey]; try discriminate; reflexivity.
Qed.

Lemma positive_not_le_zero (x : number) :
  positive_number x = true -> le x zero = false.
Proof. by_shape x. Qed.

Lemma lt_finite_l (x y : number) :
  positive_number x = true -> lt x y = true -> is_finite x = true.
Proof.
  destruct x as [s|[]| |[] m e]; simpl; try discriminate; try reflexivity.
  intros _. destruct y as [sy|[]| |sy my ey]; discriminate.
Qed.

Lemma SFcompare_Eq_positive (x y : number) :
  positive_number x = true -> SFcompare x y = Some Eq -> x = y.
Proof.
  destruct x as [s|[]| |[] m e]; try discriminate; intros _.
  - destruct y as [sy|[]| |sy my ey]; simpl; try discriminate; reflexivity.
  - destruct y as [sy|[]| |sy my ey]; try discriminate.
    apply SFcompare_Eq_finite.
Qed.

Lemma Math_max_positive (p : number) :
  positive_number p = true -> Math_max p zero = p.
Proof. by_shape p. Qed.

Lemma clamp_id (p max : number) :
  positive_number p = true -> ge max p = true ->
  Math_min (Math_max p zero) max = p.
Proof.
  intros Hp Hge. rewrite (Math_max_positive p Hp).
  rewrite (Math_min_positive p max Hp (ge_positive p max Hp Hge)).
  destruct (lt p max) eqn:Hlt; [reflexivity|].
  symmetry. apply (SFcompare_Eq_positive p max Hp).
  unfold ge, SFleb in Hge. unfold lt, SFltb in Hlt.
  destruct (SFcompare p max) as [[]|]; congruence.
Qed.

Lemma positive_one : positive_number (num_of_Z 1) = true.
Proof. reflexivity. Qed.

End Clamp.

(** ** [Math.floor] yields integers *)

Section Floor.

Lemma digits2_pos_iter (k m : positive) :
digits2_pos (Pos.iter xO m k) = (digits2_pos m + k)%positive.
Proof.
induction k as [|k IH] using Pos.peano_ind.
- simpl. lia.
- rewrite Pos.iter_succ. simpl. rewrite IH. lia.
Qed.

Lemma Zpos_iter_xO (k m : positive) :
Zpos (Pos.iter xO m k) = Zpos m * 2 ^ Zpos k.
Proof.
induction k as [|k IH] using Pos.peano_ind.
- simpl Pos.iter. lia.
- rewrite Pos.iter_succ, Pos2Z.inj_succ, Z.pow_succ_r by lia.
  rewrite Pos2Z.inj_xO, IH. lia.
Qed.

Lemma shr_exp_le mrs e n : e <= snd (shr mrs e n).
Proof. destruct n; simpl; lia. Qed.

Lemma binary_round_aux_exp s m e l s' m' e' :
binary_round_aux prec emax s m e l = S754_finite s' m' e' -> e <= e'.
Proof.
unfold binary_round_aux, shr_fexp.
set (n1 := _ - e).
pose proof (shr_exp_le (shr_record_of_loc m l) e n1) as H1.
destruct (shr (shr_record_of_loc m l) e n1) as [mrs1 e1]. simpl in H1.
set (m2 := round_nearest_even _ _).
set (n2 := _ - e1).
pose proof (shr_exp_le (shr_record_of_loc m2 loc_Exact) e1 n2) as H2.
destruct (shr (shr_record_of_loc m2 loc_Exact) e1 n2) as [mrs2 e2]. simpl in H2.
destruct (shr_m mrs2); try discriminate.
destruct (e2 <=? emax - prec); try discriminate.
intros H; injection H as _ _ <-. lia.
Qed.

Lemma binary_round_aux_exact s mz ez :
fexp prec emax (Zdigits2 (Z.pos mz) + ez) - ez = 0 ->
ez <= emax - prec ->
binary_round_aux prec emax s (Z.pos mz) ez loc_Exact = S754_finite s mz ez.
Proof.
intros Hn Hle. unfold binary_round_aux, shr_fexp.
rewrite Hn. unfold shr.
cbn [shr_record_of_loc shr_m loc_of_shr_record shr_r shr_s round_nearest_even].
rewrite Hn. cbn [shr_m].
apply Z.leb_le in Hle. now rewrite Hle.
Qed.

Lemma binary_round_int s mx :
integer_or_special (binary_round prec emax s mx 0) = true.
Proof.
unfold binary_round.
assert (Hf : fexp prec emax (Z.pos (digits2_pos mx) + 0) = Z.pos (digits2_pos mx) - 53).
{ unfold fexp, emin, prec, emax. lia. }
rewrite Hf. unfold shl_align.
destruct (Z.pos (digits2_pos mx) - 53 - 0) as [|k|k] eqn:Hk.
- destruct (binary_round_aux prec emax s (Z.pos mx) 0 loc_Exact) as [| | |s' m' e'] eqn:Hr;
    try reflexivity.
  apply binary_round_aux_exp in Hr. unfold integer_or_special. simpl.
  apply Z.leb_le in Hr. now rewrite Hr.
- destruct (binary_round_aux prec emax s (Z.pos mx) 0 loc_Exact) as [| | |s' m' e'] eqn:Hr;
    try reflexivity.
  apply binary_round_aux_exp in Hr. unfold integer_or_special. simpl.
  apply Z.leb_le in Hr. now rewrite Hr.
- (* fewer than 53 digits: the mantissa is shifted left, nothing is lost *)
  rewrite binary_round_aux_exact.
  + unfold integer_or_special, is_integer.
    replace (- (Z.pos (digits2_pos mx) - 53)) with (Z.pos k) by lia.
    rewrite Zpos_iter_xO, Z.mod_mul by lia.
    now rewrite orb_true_r.
  + unfold Zdigits2. rewrite digits2_pos_iter. unfold fexp, emin, prec, emax. lia.
  + unfold emax, prec. lia.
Qed.

Lemma num_of_Z_int z : integer_or_special (num_of_Z z) = true.
Proof. destruct z; [reflexivity | apply binary_round_int ..]. Qed.

Lemma Math_floor_int x : integer_or_special (Math_floor x) = true.
Proof.
destruct x as [s|s| |s m e]; try reflexivity.
unfold Math_floor. destruct (0 <=? e) eqn:He.
- unfold integer_or_special. simpl. now rewrite He.
- apply num_of_Z_int.
Qed.
End Floor.

(** ** Signs through the arithmetic *)

Section Signs.

(** The result of rounding carries the sign it was given. *)
Lemma binary_round_aux_sign s m e l :
  match binary_round_aux prec emax s m e l with
  | S754_zero s' | S754_infinity s' | S754_finite s' _ _ => s' = s
  | S754_nan => True
  end.
Proof.
  unfold binary_round_aux.
  destruct (shr_fexp prec emax m e l) as [mrs1 e1].
  destruct (shr_fexp prec emax _ e1 loc_Exact) as [mrs2 e2].
  destruct (shr_m mrs2); trivial.
  destruct (e2 <=? emax - prec); reflexivity.
Qed.

Lemma binary_round_aux_true m e l :
  positive_number (binary_round_aux prec emax true m e l) = false.
Proof.
  pose proof (binary_round_aux_sign true m e l) as H.
  destruct (binary_round_aux prec emax true m e l); try reflexivity; now subst.
Qed.

Lemma binary_round_aux_false m e l :
  negative_number (binary_round_aux prec emax false m e l) = false.
Proof.
  pose proof (binary_round_aux_sign false m e l) as H.
  destruct (binary_round_aux prec emax false m e l); try reflexivity; now subst.
Qed.

Lemma mul_not_positive (x y : number) :
  positive_number x = false -> negative_number y = false ->
  positive_number (mul x y) = false.
Proof.
  destruct x as [sx|[]| |[] mx ex]; try discriminate; intros _;
    destruct y as [sy|[]| |[] my ey]; try discriminate; intros _;
    try reflexivity; try (destruct sx; reflexivity);
    apply binary_round_aux_true.
Qed.

Lemma mul_not_positive' (x y : number) :
  negative_number x = false -> positive_number y = false ->
  positive_number (mul x y) = false.
Proof.
  destruct x as [sx|[]| |[] mx ex]; try discriminate; intros _;
    destruct y as [sy|[]| |[] my ey]; try discriminate; intros _;
    try reflexivity; try (destruct sx; reflexivity);
    try (destruct sy; reflexivity);
    apply binary_round_aux_true.
Qed.

Lemma div_not_positive (x y : number) :
  lt x zero = true -> gt y zero = true -> positive_number (div x y) = false.
Proof.
  destruct x as [sx|[]| |[] mx ex]; try discriminate; intros _;
    destruct y as [sy|[]| |[] my ey]; try discriminate; intros _;
    try reflexivity.
  unfold div, SFdiv.
  destruct (SFdiv_core_binary prec emax (Z.pos mx) ex (Z.pos my) ey) as [[mz ez] lz].
  apply binary_round_aux_true.
Qed.

Lemma div_not_negative (x y : number) :
  le zero x = true -> positive_number y = true -> negative_number (div x y) = false.
Proof.
  destruct x as [sx|[]| |[] mx ex]; try discriminate; intros _;
    destruct y as [sy|[]| |[] my ey]; try discriminate; intros _;
    try reflexivity.
  unfold div, SFdiv.
  destruct (SFdiv_core_binary prec emax (Z.pos mx) ex (Z.pos my) ey) as [[mz ez] lz].
  apply binary_round_aux_false.
Qed.

Lemma le_zero_not_negative (x : number) :
  le zero x = true -> negative_number x = false.
Proof. by_shape x. Qed.

Lemma Math_floor_not_positive (x : number) :
  positive_number x = false -> positive_number (Math_floor x) = false.
Proof.
  destruct x as [sx|[]| |[] mx ex]; try discriminate; intros _; try reflexivity.
  unfold Math_floor. destruct (0 <=? ex) eqn:He; [reflexivity|].
  apply Z.leb_gt in He.
  assert (Hz : cond_Zopp true (Z.pos mx) / 2 ^ (- ex) < 0).
  { apply Z.div_lt_upper_bound; [apply Z.pow_pos_nonneg; lia|]. simpl. lia. }
  destruct (cond_Zopp true (Z.pos mx) / 2 ^ (- ex)) as [|p|p] eqn:Hq; try lia.
  unfold num_of_Z, binary_normalize, binary_round.
  destruct (shl_align _ _ _) as [mz ez]. apply binary_round_aux_true.
Qed.

(** Not positive and not [NaN]: clamped to [0]. *)
Lemma clamp_not_positive (p max : number) :
  positive_number p = false -> is_nan p = false ->
  positive_number max = true ->
  Math_min (Math_max p zero) max = zero.
Proof.
  intros Hp Hn Hmax.
  destruct (Math_max_zero_cases p Hn) as [[-> _]|[_ H]]; [|congruence].
  now apply Math_min_zero.
Qed.

Lemma basePoints_negative_amount (config : RewardEngineConfig) (o : number) :
  lt o zero = true -> nonneg_rate config = true ->
  positive_number (basePoints config o) = false.
Proof.
  intros Ho Hrate. unfold basePoints, nonneg_rate in *.
  destruct (mode config).
  - apply andb_prop in Hrate as [Hd Hp].
    destruct (gt (selling_price (smart_settings config)) zero) eqn:Hs; [|reflexivity].
    apply Math_floor_not_positive, mul_not_positive.
    + apply mul_not_positive'.
      * now apply le_zero_not_negative.
      * now apply div_not_positive.
    + now apply div_not_negative.
  - destruct (gt (aed_value (manual_settings config)) zero) eqn:Hs; [|reflexivity].
    apply Math_floor_not_positive, mul_not_positive.
    + now apply div_not_positive.
    + now apply le_zero_not_negative.
Qed.

End Signs.

(** ** Zero through the arithmetic *)

Section Zeros.

Lemma div_zero_l (x y : number) :
  is_zero x = true -> gt y zero = true -> is_zero (div x y) = true.
Proof.
  destruct x as [sx|[]| |[] mx ex]; try discriminate; intros _;
    destruct y as [sy|[]| |[] my ey]; try discriminate; reflexivity.
Qed.

Lemma mul_zero_r (x y : number) :
  is_finite x = true -> is_zero y = true -> is_zero (mul x y) = true.
Proof.
  destruct x as [sx|[]| |[] mx ex]; try discriminate; intros _;
    destruct y as [sy|[]| |[] my ey]; try discriminate; reflexivity.
Qed.

Lemma mul_zero_l (x y : number) :
  is_zero x = true -> is_finite y = true -> is_zero (mul x y) = true.
Proof.
  destruct x as [sx|[]| |[] mx ex]; try discriminate; intros _;
    destruct y as [sy|[]| |[] my ey]; try discriminate; reflexivity.
Qed.

Lemma Math_floor_zero (x : number) :
  is_zero x = true -> is_zero (Math_floor x) = true.
Proof. destruct x; try discriminate; reflexivity. Qed.

Lemma clamp_zero (p max : number) :
  is_zero p = true -> positive_number max = true ->
  Math_min (Math_max p zero) max = zero.
Proof.
  destruct p as [s| | |]; try discriminate. intros _ Hmax.
  simpl Math_max. rewrite andb_false_r. now apply Math_min_zero.
Qed.

Lemma basePoints_zero_amount (config : RewardEngineConfig) (o : number)
    (customerTier : string) :
  is_zero o = true -> finite_factors config customerTier = true ->
  is_zero (basePoints config o) = true.
Proof.
  intros Ho Hf. unfold basePoints, finite_factors in *.
  apply andb_prop in Hf as [Hf _].
  destruct (mode config).
  - apply andb_prop in Hf as [Hd Hp].
    destruct (gt (selling_price (smart_settings config)) zero) eqn:Hs; [|reflexivity].
    apply Math_floor_zero, mul_zero_l; trivial.
    apply mul_zero_r; trivial. now apply div_zero_l.
  - destruct (gt (aed_value (manual_settings config)) zero) eqn:Hs; [|reflexivity].
    apply Math_floor_zero, mul_zero_l; trivial. now apply div_zero_l.
Qed.

End Zeros.

(** ** Lookup of a tier multiplier *)

Section Tiers.

Lemma known_tier_cases (t : string) :
  known_tier t = true ->
  t = "bronze" \/ t = "silver" \/ t = "gold" \/ t = "platinum".
Proof.
  unfold known_tier. simpl. rewrite !orb_true_iff, !String.eqb_eq.
  intuition congruence.
Qed.

Lemma tier_lookup_set_tier (tm : TierMultipliers) (t : string) (v : number) :
  known_tier t = true -> tier_lookup (set_tier tm t v) t = VNumber v.
Proof.
  intros H. destruct (known_tier_cases t H) as [->|[->|[->| ->]]]; reflexivity.
Qed.


Lemma tier_lookup_inherited (tm : TierMultipliers) (t : string) :
  known_tier t = false -> inherited t = true -> tier_lookup tm t = VObject.
Proof.
  unfold known_tier, tier_lookup. simpl existsb. rewrite !orb_false_iff.
  intros (-> & -> & -> & -> & _) ->. reflexivity.
Qed.



End Tiers.

(** ** No division by zero *)

Section Totality.

Lemma gt_zero_not_zero (x : number) : gt x zero = true -> is_zero x = false.
Proof. by_shape x. Qed.

Lemma le_not_gt (x y : number) : le x y = true -> gt x y = false.
Proof.
  unfold le, gt, SFleb, SFltb. rewrite (SFcompare_antisym x y).
  destruct (SFcompare x y) as [[]|]; simpl; congruence.
Qed.

Lemma basePoints_checked_ok (config : RewardEngineConfig) (o : number) :
  basePoints_checked config o = Some (basePoints config o).
Proof.
  unfold basePoints_checked, basePoints. destruct (mode config).
  - destruct (gt (selling_price (smart_settings config)) zero) eqn:Hs;
      [|reflexivity].
    unfold checked_div. now rewrite (gt_zero_not_zero _ Hs).
  - destruct (gt (aed_value (manual_settings config)) zero) eqn:Hs;
      [|reflexivity].
    unfold checked_div. now rewrite (gt_zero_not_zero _ Hs).
Qed.

(** X2: every call returns, and none of its three divisions (by
    [selling_price], by 100, by [aed_value]) ever meets a zero divisor:
    the computation with checked divisions succeeds with the same
    result. *)
Lemma calculatePointsPreview_total (config : RewardEngineConfig)
    (o : number) (t : string) :
  calculatePointsPreview_checked config o t
  = Some (calculatePointsPreview config o t).
Proof.
  unfold calculatePointsPreview_checked. now rewrite basePoints_checked_ok.
Qed.

(** Without a positive divisor the base points are [0]. *)
Lemma basePoints_degenerate (config : RewardEngineConfig) (o : number) :
  (mode config = smart ->
   gt (selling_price (smart_settings config)) zero = false ->
   basePoints config o = zero)
  /\ (mode config = manual ->
      gt (aed_value (manual_settings config)) zero = false ->
      basePoints config o = zero).
Proof.
  unfold basePoints. split; intros -> ->; reflexivity.
Qed.

End Totality.

(** ** The specification's claims *)

Section Claims.

(** C1, as stated, fails.  With finite inputs
    ([aed_value = 2^-10], [point_value = 0], [orderAmount = 2^1023]) the
    quotient [2^1033] overflows to [Infinity], [Infinity * 0] is [NaN],
    and [NaN] passes through [Math.floor], [Math.max] and [Math.min]: the
    result is neither non-negative, nor an integer, nor below the
    maximum.  And with [max_points_per_order = 2.5] an order worth 9
    points returns [2.5], which is not an integer. *)
Lemma clamp_counterexample :
  (let config := manual_config (dyadic 1 (-10)) zero (num_of_Z 1000) in
   let r := calculatePointsPreview config (dyadic 1 1023) "bronze" in
   valid_config config = true
   /\ valid (dyadic 1 1023) = true
   /\ ge (max_points_per_order config) (num_of_Z 1) = true
   /\ div (dyadic 1 1023) (dyadic 1 (-10)) = Infinity
   /\ r = NaN
   /\ le zero r = false
   /\ le r (max_points_per_order config) = false
   /\ is_integer r = false)
  /\
  (let config := manual_config (num_of_Z 10) (num_of_Z 1) (dyadic 5 (-1)) in
   let r := calculatePointsPreview config (num_of_Z 95) "bronze" in
   valid_config config = true
   /\ ge (max_points_per_order config) (num_of_Z 1) = true
   /\ finalPoints config (num_of_Z 95) "bronze" = num_of_Z 9
   /\ r = dyadic 5 (-1)
   /\ is_integer r = false).
Proof. vm_compute. repeat split. Qed.

(** C1 (amended): for every configuration with
    [max_points_per_order >= 1], every amount and every tier for which
    the pre-clamp [finalPoints] is not [NaN], the result is
    [min(max(finalPoints, 0), max_points_per_order)]; it is non-negative
    and at most [max_points_per_order]; it is exactly
    [max_points_per_order] when [finalPoints] exceeds it; and it is an
    integer when [max_points_per_order] is one. *)
Theorem calculatePointsPreview_clamped
    (config : RewardEngineConfig) (orderAmount : number) (customerTier : string) :
  ge (max_points_per_order config) (num_of_Z 1) = true ->
  is_nan (finalPoints config orderAmount customerTier) = false ->
  let p := finalPoints config orderAmount customerTier in
  let r := calculatePointsPreview config orderAmount customerTier in
  r = Math_min (Math_max p zero) (max_points_per_order config)
  /\ le zero r = true
  /\ le r (max_points_per_order config) = true
  /\ (gt p (max_points_per_order config) = true ->
      r = max_points_per_order config)
  /\ (is_integer (max_points_per_order config) = true ->
      is_integer r = true).
Proof.
  intros Hmax Hnan p r.
  assert (Hpos : positive_number (max_points_per_order config) = true)
    by exact (ge_positive _ _ positive_one Hmax).
  split; [reflexivity|].
  subst r. unfold calculatePointsPreview. fold p.
  destruct (Math_max_zero_cases p Hnan) as [[-> Hle]|[-> Hp]].
  - rewrite (Math_min_zero _ Hpos). repeat split.
    + now apply le_zero_positive.
    + intros Hgt. apply (gt_positive _ _ Hpos) in Hgt.
      apply positive_not_le_zero in Hgt. congruence.
  - rewrite (Math_min_positive _ _ Hp Hpos).
    destruct (lt p (max_points_per_order config)) eqn:Hlt; repeat split.
    + now apply le_zero_positive.
    + now apply lt_le.
    + intros Hgt. apply lt_asym in Hgt. unfold gt in *. fold (lt p (max_points_per_order config)) in Hgt. congruence.
    + intros _. pose proof (Math_floor_int (mul (basePoints config orderAmount)
                    (ToNumber (tierMultiplier config customerTier)))) as Hi.
      fold (finalPoints config orderAmount customerTier) in Hi. fold p in Hi.
      unfold integer_or_special in Hi.
      rewrite (lt_finite_l _ _ Hp Hlt) in Hi. now rewrite orb_false_r in Hi.
    + now apply le_zero_positive.
    + apply le_refl. now apply positive_not_nan.
    + trivial.
Qed.

(** Witness of C1 (amended): the default configuration, 95 spent, silver. *)
Lemma calculatePointsPreview_clamped_witness :
  let r := calculatePointsPreview getDefaultConfig (num_of_Z 95) "silver" in
  le zero r = true
  /\ le r (max_points_per_order getDefaultConfig) = true
  /\ is_integer r = true.
Proof.
  destruct (calculatePointsPreview_clamped getDefaultConfig (num_of_Z 95)
              "silver" eq_refl eq_refl) as (_ & H0 & Hmax & _ & Hint).
  exact (conj H0 (conj Hmax (Hint eq_refl))).
Defined.

(** C2 (confirmed): in smart mode the base points are
    [floor((selling_price - cost_price) * (orderAmount / selling_price)
    * (profit_allocation_percent / 100))] when [selling_price > 0] and
    [0] when [selling_price <= 0]; with cost 5, price 10, 20 percent, an
    order of 100, a tier multiplier of 1.0 and a maximum of at least 10
    the call returns exactly 10. *)
Theorem smart_basePoints (config : RewardEngineConfig) :
  mode config = smart ->
  let cost_price := cost_price (smart_settings config) in
  let selling_price := selling_price (smart_settings config) in
  let percent := profit_allocation_percent (smart_settings config) in
  (forall orderAmount,
      gt selling_price zero = true ->
      basePoints config orderAmount
      = Math_floor (mul (mul (sub selling_price cost_price)
                             (div orderAmount selling_price))
                        (div percent (num_of_Z 100))))
  /\ (forall orderAmount,
         le selling_price zero = true ->
         basePoints config orderAmount = zero)
  /\ (forall customerTier,
         cost_price = num_of_Z 5 ->
         selling_price = num_of_Z 10 ->
         percent = num_of_Z 20 ->
         ToNumber (tierMultiplier config customerTier) = num_of_Z 1 ->
         ge (max_points_per_order config) (num_of_Z 10) = true ->
         calculatePointsPreview config (num_of_Z 100) customerTier
         = num_of_Z 10).
Proof.
  intros Hmode cp sp pc. subst cp sp pc. split; [|split].
  - intros o Hs. unfold basePoints. now rewrite Hmode, Hs.
  - intros o Hs. unfold basePoints. now rewrite Hmode, (le_not_gt _ _ Hs).
  - intros t Hc Hs Hp Ht Hmax.
    unfold calculatePointsPreview, finalPoints, basePoints.
    rewrite Hmode, Hc, Hs, Hp, Ht.
    change (Math_floor _) with (num_of_Z 10).
    now apply clamp_id.
Qed.

(** Witness of C2: the specification's smart-mode example. *)
Lemma smart_basePoints_witness :
  calculatePointsPreview
    (smart_config (num_of_Z 5) (num_of_Z 10) (num_of_Z 20) (num_of_Z 1000))
    (num_of_Z 100) "bronze"
  = num_of_Z 10.
Proof.
  destruct (smart_basePoints
              (smart_config (num_of_Z 5) (num_of_Z 10) (num_of_Z 20)
                            (num_of_Z 1000)) eq_refl) as (_ & _ & H).
  exact (H "bronze" eq_refl eq_refl eq_refl eq_refl eq_refl).
Defined.

(** C3 (confirmed): in manual mode the base points are
    [floor((orderAmount / aed_value) * point_value)] when [aed_value > 0]
    and [0] otherwise; the multiplier is applied to the floored base and
    the product is floored again; with [aed_value = 10], [point_value = 1],
    an order of 95, a multiplier of 1.25 and a maximum of at least 11 the
    call returns exactly 11. *)
Theorem manual_two_stage_floor (config : RewardEngineConfig) :
  mode config = manual ->
  let aed_value := aed_value (manual_settings config) in
  let point_value := point_value (manual_settings config) in
  (forall orderAmount,
      gt aed_value zero = true ->
      basePoints config orderAmount
      = Math_floor (mul (div orderAmount aed_value) point_value))
  /\ (forall orderAmount,
         gt aed_value zero = false ->
         basePoints config orderAmount = zero)
  /\ (forall orderAmount customerTier,
         finalPoints config orderAmount customerTier
         = Math_floor (mul (basePoints config orderAmount)
                           (ToNumber (tierMultiplier config customerTier))))
  /\ (forall customerTier,
         aed_value = num_of_Z 10 ->
         point_value = num_of_Z 1 ->
         ToNumber (tierMultiplier config customerTier) = dyadic 5 (-2) ->
         ge (max_points_per_order config) (num_of_Z 11) = true ->
         basePoints config (num_of_Z 95) = num_of_Z 9
         /\ calculatePointsPreview config (num_of_Z 95) customerTier
            = num_of_Z 11).
Proof.
  intros Hmode av pv. subst av pv. split; [|split; [|split]].
  - intros o Ha. unfold basePoints. now rewrite Hmode, Ha.
  - intros o Ha. unfold basePoints. now rewrite Hmode, Ha.
  - reflexivity.
  - intros t Ha Hp Ht Hmax. split.
    + unfold basePoints. now rewrite Hmode, Ha, Hp.
    + unfold calculatePointsPreview, finalPoints, basePoints.
      rewrite Hmode, Ha, Hp, Ht.
      change (Math_floor _) with (num_of_Z 11).
      now apply clamp_id.
Qed.

(** Witness of C3: the specification's manual-mode example (silver). *)
Lemma manual_two_stage_floor_witness :
  calculatePointsPreview getDefaultConfig (num_of_Z 95) "silver" = num_of_Z 11.
Proof.
  destruct (manual_two_stage_floor getDefaultConfig eq_refl)
    as (_ & _ & _ & H).
  exact (proj2 (H "silver" eq_refl eq_refl eq_refl eq_refl)).
Defined.

(** C4, as stated, fails: a negative amount is not replaced by [0].  With
    [cost_price = 10], [selling_price = 5], 100 percent and an order of
    -10 the profit is [(5 - 10) * (-10 / 5) = 10] and 10 points are
    awarded. *)
Lemma negative_amount_counterexample :
  let config :=
    smart_config (num_of_Z 10) (num_of_Z 5) (num_of_Z 100) (num_of_Z 1000) in
  valid_config config = true
  /\ lt (num_of_Z (-10)) zero = true
  /\ basePoints config (num_of_Z (-10)) = num_of_Z 10
  /\ calculatePointsPreview config (num_of_Z (-10)) "bronze" = num_of_Z 10
  /\ calculatePointsPreview config zero "bronze" = zero.
Proof. vm_compute. repeat split. Qed.

(** C4 (amended): a negative [orderAmount] goes through the formula as
    it is.  When the points earned per unit of currency are not negative
    (manual: [point_value >= 0]; smart: [selling_price - cost_price >= 0]
    and [profit_allocation_percent >= 0]), the multiplier applied is not
    negative, [max_points_per_order >= 1] and no [NaN] arises, the result
    is [0]. *)
Theorem negative_amount_zero
    (config : RewardEngineConfig) (orderAmount : number) (customerTier : string) :
  lt orderAmount zero = true ->
  ge (max_points_per_order config) (num_of_Z 1) = true ->
  nonneg_rate config = true ->
  le zero (ToNumber (tierMultiplier config customerTier)) = true ->
  is_nan (finalPoints config orderAmount customerTier) = false ->
  calculatePointsPreview config orderAmount customerTier = zero.
Proof.
  intros Ho Hmax Hrate Htier Hnan. unfold calculatePointsPreview.
  apply clamp_not_positive; trivial.
  - unfold finalPoints. apply Math_floor_not_positive, mul_not_positive.
    + now apply basePoints_negative_amount.
    + now apply le_zero_not_negative.
  - apply (ge_positive (num_of_Z 1)); [reflexivity | assumption].
Qed.

(** Witness of C4 (amended): a refund of 95 under the default
    configuration. *)
Lemma negative_amount_zero_witness :
  calculatePointsPreview getDefaultConfig (num_of_Z (-95)) "silver" = zero.
Proof.
  exact (negative_amount_zero getDefaultConfig (num_of_Z (-95)) "silver"
           eq_refl eq_refl eq_refl eq_refl eq_refl).
Defined.

(** C5: the fallback to [1.0] misses the names an object inherits.  For
    a [customerTier] that is not a tier but is a property of
    [Object.prototype], the lookup yields that inherited member, which is
    truthy, so [|| 1.0] is not taken and the product is [NaN]: the call
    returns [NaN] for every configuration and amount. *)
Theorem inherited_tier_name_yields_NaN
    (config : RewardEngineConfig) (orderAmount : number) (customerTier : string) :
  known_tier customerTier = false ->
  inherited customerTier = true ->
  tierMultiplier config customerTier = VObject
  /\ calculatePointsPreview config orderAmount customerTier = NaN.
Proof.
  intros Hk Hi.
  assert (Ht : tierMultiplier config customerTier = VObject).
  { unfold tierMultiplier. now rewrite tier_lookup_inherited. }
  split; [exact Ht|].
  unfold calculatePointsPreview, finalPoints. rewrite Ht.
  destruct (basePoints config orderAmount); reflexivity.
Qed.

(** C5 at the failing input: [customerTier = "toString"] under the
    default configuration gives [NaN], where a tier with multiplier 1.0
    (bronze) gives 9. *)
Lemma inherited_tier_name_witness :
  known_tier "toString" = false
  /\ calculatePointsPreview getDefaultConfig (num_of_Z 95) "toString" = NaN
  /\ tierMultiplier getDefaultConfig "bronze" = VNumber (num_of_Z 1)
  /\ calculatePointsPreview getDefaultConfig (num_of_Z 95) "bronze"
     = num_of_Z 9.
Proof.
  split; [reflexivity|]. split; [|split; reflexivity].
  exact (proj2 (inherited_tier_name_yields_NaN getDefaultConfig (num_of_Z 95)
                  "toString" eq_refl eq_refl)).
Defined.

(** C6, as stated, fails: with [point_value = Infinity] an amount of 0
    gives [0 * Infinity = NaN]; and with finite prices whose difference
    overflows ([selling_price = 3 * 2^1022], [cost_price = -3 * 2^1022]) it
    gives
    [Infinity * 0 = NaN]. *)
Lemma zero_amount_counterexample :
  (let config := manual_config (num_of_Z 10) Infinity (num_of_Z 1000) in
   ge (max_points_per_order config) (num_of_Z 1) = true
   /\ valid_config config = true
   /\ basePoints config zero = NaN
   /\ calculatePointsPreview config zero "bronze" = NaN)
  /\
  (let config :=
     smart_config (dyadic (-3) 1022) (dyadic 3 1022) (num_of_Z 20)
                  (num_of_Z 1000) in
   ge (max_points_per_order config) (num_of_Z 1) = true
   /\ valid_config config = true
   /\ sub (dyadic 3 1022) (dyadic (-3) 1022) = Infinity
   /\ basePoints config zero = NaN
   /\ calculatePointsPreview config zero "bronze" = NaN).
Proof. vm_compute. repeat split. Qed.

(** C6 (amended): for every configuration with
    [max_points_per_order >= 1] whose factors are finite
    ([selling_price - cost_price] and [profit_allocation_percent / 100]
    in smart mode, [point_value] in manual mode, and the multiplier
    applied), an amount of 0 gives base points 0 and result 0. *)
Theorem zero_amount_zero_points
    (config : RewardEngineConfig) (orderAmount : number) (customerTier : string) :
  is_zero orderAmount = true ->
  ge (max_points_per_order config) (num_of_Z 1) = true ->
  finite_factors config customerTier = true ->
  is_zero (basePoints config orderAmount) = true
  /\ calculatePointsPreview config orderAmount customerTier = zero.
Proof.
  intros Ho Hmax Hf.
  pose proof (basePoints_zero_amount config orderAmount customerTier Ho Hf) as Hb.
  split; [exact Hb|].
  unfold calculatePointsPreview, finalPoints. apply clamp_zero.
  - apply Math_floor_zero, mul_zero_l; trivial.
    unfold finite_factors in Hf. now apply andb_prop in Hf as [_ Hf].
  - apply (ge_positive (num_of_Z 1)); [reflexivity | assumption].
Qed.

(** Witness of C6 (amended): the default configuration and the smart
    example, amount 0. *)
Lemma zero_amount_zero_points_witness :
  calculatePointsPreview getDefaultConfig zero "gold" = zero
  /\ calculatePointsPreview
       (smart_config (num_of_Z 5) (num_of_Z 10) (num_of_Z 20) (num_of_Z 1000))
       zero "diamond" = zero.
Proof.
  split.
  - exact (proj2 (zero_amount_zero_points getDefaultConfig zero "gold"
                    eq_refl eq_refl eq_refl)).
  - exact (proj2 (zero_amount_zero_points
                    (smart_config (num_of_Z 5) (num_of_Z 10) (num_of_Z 20)
                                  (num_of_Z 1000))
                    zero "diamond" eq_refl eq_refl eq_refl)).
Defined.

(** C7 (confirmed): the settings record of the other mode is ignored.  In
    smart mode replacing [manual_settings], and in manual mode replacing
    [smart_settings], leaves the result unchanged for every amount and
    tier. *)
Theorem other_settings_ignored
    (config : RewardEngineConfig) (orderAmount : number) (customerTier : string) :
  (mode config = smart ->
   forall ms : ManualSettings,
     calculatePointsPreview (with_manual_settings config ms)
                            orderAmount customerTier
     = calculatePointsPreview config orderAmount customerTier)
  /\ (mode config = manual ->
      forall ss : SmartSettings,
        calculatePointsPreview (with_smart_settings config ss)
                               orderAmount customerTier
        = calculatePointsPreview config orderAmount customerTier).
Proof.
  split; intros Hmode s;
    unfold calculatePointsPreview, finalPoints, tierMultiplier, basePoints;
    simpl; now rewrite Hmode.
Qed.

(** Witness of C7: both modes, with the other record replaced by one that
    would change the result if it were read. *)
Lemma other_settings_ignored_witness :
  calculatePointsPreview
    (with_manual_settings
       (smart_config (num_of_Z 5) (num_of_Z 10) (num_of_Z 20) (num_of_Z 1000))
       {| aed_value := num_of_Z 1; point_value := num_of_Z 7 |})
    (num_of_Z 100) "bronze"
  = num_of_Z 10
  /\ calculatePointsPreview
       (with_smart_settings getDefaultConfig
          {| cost_price := num_of_Z 1;
             selling_price := num_of_Z 2;
             profit_allocation_percent := num_of_Z 100 |})
       (num_of_Z 95) "silver"
     = num_of_Z 11.
Proof.
  split.
  - rewrite (proj1 (other_settings_ignored
                      (smart_config (num_of_Z 5) (num_of_Z 10) (num_of_Z 20)
                                    (num_of_Z 1000))
                      (num_of_Z 100) "bronze") eq_refl).
    reflexivity.
  - rewrite (proj2 (other_settings_ignored getDefaultConfig (num_of_Z 95)
                      "silver") eq_refl).
    reflexivity.
Defined.

(** C8: no error is raised and no divisor is zero, but an unknown tier
    is not always normalised to 1.0.  At [customerTier = "toString"] the
    checked computation returns normally, the multiplier applied is the
    inherited member instead of [1.0], and the value returned is [NaN]. *)
Theorem unknown_tier_not_normalised :
  known_tier "toString" = false
  /\ tierMultiplier getDefaultConfig "toString" = VObject
  /\ calculatePointsPreview_checked getDefaultConfig (num_of_Z 95) "toString"
     = Some NaN
  /\ calculatePointsPreview_checked getDefaultConfig (num_of_Z 95) "diamond"
     = Some (num_of_Z 9).
Proof.
  repeat split.
Qed.

(** The stateful program computes the function of the object's content
    and hands the world back as it received it. *)
Lemma calculatePointsPreview_run (config : Stateful.ref) (orderAmount : number)
    (customerTier : string) (w : Stateful.World) :
  Stateful.calculatePointsPreview config orderAmount customerTier w
  = (calculatePointsPreview (Stateful.heap w config) orderAmount customerTier,
     w).
Proof.
  unfold Stateful.calculatePointsPreview, Stateful.bindM, Stateful.read,
    Stateful.ret, calculatePointsPreview, finalPoints, tierMultiplier,
    basePoints.
  destruct (mode (Stateful.heap w config)).
  - destruct (gt (selling_price (smart_settings (Stateful.heap w config))) zero);
      reflexivity.
  - destruct (gt (aed_value (manual_settings (Stateful.heap w config))) zero);
      reflexivity.
Qed.

(** The sibling [calculatePointsForOrder] is not pure: with the same
    arguments its result follows the database, and a failing request
    changes the console. *)
Lemma calculatePointsForOrder_not_pure :
  let call := Stateful.calculatePointsForOrder "r1" (num_of_Z 95) "silver" in
  fst (call Stateful.quiet_world) <> fst (call Stateful.failing_world)
  /\ snd (call Stateful.failing_world) <> Stateful.failing_world.
Proof.
  split.
  - vm_compute. discriminate.
  - intros H. apply (f_equal Stateful.console) in H.
    vm_compute in H. discriminate.
Qed.

(** C9 (confirmed): [calculatePointsPreview] is deterministic and pure.
    Run as a program over the shared state, with the same arguments (the
    same configuration object with the same content, the same amount and
    tier), it returns the same number in any two worlds, whatever the
    console and the database hold; it leaves the world exactly as it
    found it; and two invocations in sequence return the same number
    twice. *)
Theorem calculatePointsPreview_pure
    (config : Stateful.ref) (orderAmount : number) (customerTier : string)
    (w w' : Stateful.World) :
  Stateful.heap w config = Stateful.heap w' config ->
  let call := Stateful.calculatePointsPreview config orderAmount customerTier in
  fst (call w) = fst (call w')
  /\ snd (call w) = w
  /\ Stateful.bindM call (fun first =>
       Stateful.bindM call (fun second =>
       Stateful.ret (first, second))) w
     = ((fst (call w), fst (call w)), w).
Proof.
  intros Hsame call. subst call. split; [|split].
  - rewrite !calculatePointsPreview_run. simpl. now rewrite Hsame.
  - now rewrite calculatePointsPreview_run.
  - unfold Stateful.bindM. now rewrite !calculatePointsPreview_run.
Qed.

(** Witness of C9: the default configuration in two worlds that differ
    in console and database; 11 points in both. *)
Lemma calculatePointsPreview_pure_witness :
  fst (Stateful.calculatePointsPreview 0%nat (num_of_Z 95) "silver"
         Stateful.quiet_world)
  = fst (Stateful.calculatePointsPreview 0%nat (num_of_Z 95) "silver"
           Stateful.failing_world)
  /\ fst (Stateful.calculatePointsPreview 0%nat (num_of_Z 95) "silver"
            Stateful.quiet_world)
     = num_of_Z 11.
Proof.
  split.
  - exact (proj1 (calculatePointsPreview_pure 0%nat (num_of_Z 95) "silver"
                    Stateful.quiet_world Stateful.failing_world eq_refl)).
  - reflexivity.
Defined.

(** C10 (confirmed): a multiplier of 0 configured for a known tier is
    replaced by 1.0: the call returns what it returns with that
    multiplier set to 1.0. *)
Theorem zero_multiplier_replaced
    (config : RewardEngineConfig) (orderAmount : number) (customerTier : string)
    (multiplier : number) :
  known_tier customerTier = true ->
  tier_lookup (tier_multipliers config) customerTier = VNumber multiplier ->
  is_zero multiplier = true ->
  calculatePointsPreview config orderAmount customerTier
  = calculatePointsPreview
      (with_tier_multiplier config customerTier (num_of_Z 1))
      orderAmount customerTier.
Proof.
  intros Hk Hl Hz.
  unfold calculatePointsPreview, finalPoints, tierMultiplier.
  simpl tier_multipliers. rewrite Hl, (tier_lookup_set_tier _ _ _ Hk).
  destruct multiplier; try discriminate. reflexivity.
Qed.

(** Witness of C10: gold set to 0 awards the 9 points of a multiplier of
    1.0, not 0. *)
Lemma zero_multiplier_replaced_witness :
  calculatePointsPreview (with_tier_multiplier getDefaultConfig "gold" zero)
                         (num_of_Z 95) "gold"
  = num_of_Z 9.
Proof.
  rewrite (zero_multiplier_replaced
             (with_tier_multiplier getDefaultConfig "gold" zero)
             (num_of_Z 95) "gold" zero eq_refl eq_refl eq_refl).
  reflexivity.
Defined.

End Claims.

(** ** Further properties of the calculator *)

Section CalculatorEdges.

Lemma lt_zero_negative (x : number) : lt x zero = negative_number x.
Proof. by_shape x. Qed.

Lemma Math_min_negative (x y : number) :
  negative_number y = true -> negative_number x = false ->
  is_nan x = false -> Math_min x y = y.
Proof.
  destruct y as [sy|[]| |[] my ey]; try discriminate; intros _;
    destruct x as [sx|[]| |[] mx ex]; try discriminate; reflexivity.
Qed.

Lemma Math_max_zero_not_negative (p : number) :
  negative_number (Math_max p zero) = false.
Proof. by_shape p. Qed.

Lemma Math_max_zero_nan (p : number) :
  is_nan (Math_max p zero) = is_nan p.
Proof. by_shape p. Qed.

Lemma Math_min_nan (x y : number) :
  is_nan (Math_min x y) = is_nan x || is_nan y.
Proof.
  destruct x as [sx|sx| |sx mx ex], y as [sy|sy| |sy my ey]; try reflexivity;
    unfold Math_min;
    match goal with |- context [SFltb ?a ?b] => destruct (SFltb a b) end;
    reflexivity.
Qed.

Lemma Math_min_le (x y : number) :
  is_nan x = false -> is_nan y = false -> le (Math_min x y) y = true.
Proof.
  intros Hx Hy.
  assert (H : Math_min x y = (if lt x y then x else y)
              \/ (is_zero (Math_min x y) = true /\ is_zero y = true)).
  { destruct x as [sx|sx| |sx mx ex], y as [sy|sy| |sy my ey];
      try discriminate; try (left; reflexivity).
    right. split; reflexivity. }
  destruct H as [-> | [Hm Hz]].
  - destruct (lt x y) eqn:Hlt; [now apply lt_le | now apply le_refl].
  - destruct (Math_min x y); try discriminate.
    destruct y; try discriminate. reflexivity.
Qed.

Lemma clamp_nan (p m : number) :
  is_nan (Math_min (Math_max p zero) m) = is_nan p || is_nan m.
Proof. now rewrite Math_min_nan, Math_max_zero_nan. Qed.

(** X3: with a negative [max_points_per_order] the call returns that
    negative maximum, for every order whose [finalPoints] is not [NaN]. *)
Theorem negative_max_returned
    (config : RewardEngineConfig) (orderAmount : number) (customerTier : string) :
  lt (max_points_per_order config) zero = true ->
  is_nan (finalPoints config orderAmount customerTier) = false ->
  calculatePointsPreview config orderAmount customerTier
  = max_points_per_order config.
Proof.
  intros Hmax Hnan. unfold calculatePointsPreview.
  rewrite lt_zero_negative in Hmax.
  apply Math_min_negative; trivial.
  - apply Math_max_zero_not_negative.
  - now rewrite Math_max_zero_nan.
Qed.

Lemma negative_max_returned_witness :
  calculatePointsPreview
    (with_max_points getDefaultConfig (num_of_Z (-5))) (num_of_Z 95) "gold"
  = num_of_Z (-5).
Proof.
  exact (negative_max_returned
           (with_max_points getDefaultConfig (num_of_Z (-5))) (num_of_Z 95)
           "gold" eq_refl eq_refl).
Defined.

(** X4: the result is [NaN] exactly when [finalPoints] or
    [max_points_per_order] is. *)
Theorem result_nan_iff
    (config : RewardEngineConfig) (orderAmount : number) (customerTier : string) :
  is_nan (calculatePointsPreview config orderAmount customerTier)
  = is_nan (finalPoints config orderAmount customerTier)
    || is_nan (max_points_per_order config).
Proof.
  unfold calculatePointsPreview. apply clamp_nan.
Qed.

(** X5: whatever the maximum is (also below 1), a result that is not
    [NaN] is at most [max_points_per_order] and not negative unless the
    maximum is. *)
Theorem result_bounded_by_max
    (config : RewardEngineConfig) (orderAmount : number) (customerTier : string) :
  is_nan (calculatePointsPreview config orderAmount customerTier) = false ->
  le (calculatePointsPreview config orderAmount customerTier)
     (max_points_per_order config) = true
  /\ (le zero (max_points_per_order config) = true ->
      le zero (calculatePointsPreview config orderAmount customerTier) = true).
Proof.
  intros Hnan. unfold calculatePointsPreview in *.
  rewrite clamp_nan in Hnan.
  apply orb_false_elim in Hnan as [Hp Hm]. split.
  - apply Math_min_le; trivial. now rewrite Math_max_zero_nan.
  - intros Hmax.
    set (a := Math_max (finalPoints config orderAmount customerTier) zero).
    assert (Ha : negative_number a = false) by apply Math_max_zero_not_negative.
    assert (Han : is_nan a = false) by (unfold a; now rewrite Math_max_zero_nan).
    destruct a as [sa|[]| |[] ma ea]; try discriminate;
      destruct (max_points_per_order config) as [sy|[]| |[] my ey];
      try discriminate; try reflexivity;
      unfold Math_min;
      match goal with |- context [SFltb ?a ?b] => destruct (SFltb a b) end;
      reflexivity.
Qed.

Lemma result_bounded_by_max_witness :
  le (calculatePointsPreview
        (with_max_points getDefaultConfig (dyadic 1 (-1))) (num_of_Z 95) "gold")
     (dyadic 1 (-1)) = true.
Proof.
  exact (proj1 (result_bounded_by_max
                  (with_max_points getDefaultConfig (dyadic 1 (-1)))
                  (num_of_Z 95) "gold" eq_refl)).
Defined.


(** X6: when the divisor of the active mode fails its guard
    ([selling_price] in smart mode, [aed_value] in manual mode, not
    greater than 0, [NaN] included), the call returns 0 for every amount,
    provided the multiplier applied is finite and
    [max_points_per_order >= 1]. *)
Theorem no_divisor_no_points
    (config : RewardEngineConfig) (orderAmount : number) (customerTier : string) :
  divisor_guard config = false ->
  is_finite (ToNumber (tierMultiplier config customerTier)) = true ->
  ge (max_points_per_order config) (num_of_Z 1) = true ->
  calculatePointsPreview config orderAmount customerTier = zero.
Proof.
  intros Hg Hm Hmax.
  assert (Hb : basePoints config orderAmount = zero).
  { unfold divisor_guard in Hg. unfold basePoints.
    destruct (mode config); now rewrite Hg. }
  unfold calculatePointsPreview, finalPoints. rewrite Hb.
  apply clamp_zero.
  - apply Math_floor_zero, mul_zero_l; trivial.
  - apply (ge_positive (num_of_Z 1)); [reflexivity | assumption].
Qed.

(** Witness of X6: the default configuration switched to smart mode,
    whose [selling_price] is still 0. *)
Lemma no_divisor_no_points_witness :
  getPreviewPoints (onModeClick smart (Some getDefaultConfig))
                   (num_of_Z 95) "platinum"
  = zero.
Proof.
  exact (no_divisor_no_points
           (smart_config zero zero (num_of_Z 20) (num_of_Z 1000))
           (num_of_Z 95) "platinum" eq_refl eq_refl eq_refl).
Defined.

(** X7: when the points earned per unit of currency are not positive
    (smart: [selling_price - cost_price <= 0] with a non-negative
    percentage; manual: [point_value <= 0]), a non-negative amount with a
    non-negative multiplier earns 0, provided no [NaN] arises and
    [max_points_per_order >= 1]. *)
Theorem nonpositive_rate_no_points
    (config : RewardEngineConfig) (orderAmount : number) (customerTier : string) :
  le zero orderAmount = true ->
  nonpos_rate config = true ->
  le zero (ToNumber (tierMultiplier config customerTier)) = true ->
  is_nan (finalPoints config orderAmount customerTier) = false ->
  ge (max_points_per_order config) (num_of_Z 1) = true ->
  calculatePointsPreview config orderAmount customerTier = zero.
Proof.
  intros Ho Hrate Htier Hnan Hmax. unfold calculatePointsPreview.
  apply clamp_not_positive; trivial.
  - unfold finalPoints. apply Math_floor_not_positive, mul_not_positive.
    + unfold basePoints, nonpos_rate in *. destruct (mode config).
      * apply andb_prop in Hrate as [Hd Hp].
        destruct (gt (selling_price (smart_settings config)) zero) eqn:Hs;
          [|reflexivity].
        rewrite gt_zero_positive in Hs.
        apply Math_floor_not_positive, mul_not_positive.
        -- apply mul_not_positive.
           ++ apply le_not_gt in Hd. now rewrite gt_zero_positive in Hd.
           ++ now apply div_not_negative.
        -- now apply div_not_negative.
      * destruct (gt (aed_value (manual_settings config)) zero) eqn:Hs;
          [|reflexivity].
        rewrite gt_zero_positive in Hs.
        apply Math_floor_not_positive, mul_not_positive'.
        -- now apply div_not_negative.
        -- apply le_not_gt in Hrate. now rewrite gt_zero_positive in Hrate.
    + now apply le_zero_not_negative.
  - apply (ge_positive (num_of_Z 1)); [reflexivity | assumption].
Qed.

(** Witness of X7: an item sold below cost (cost 10, price 5). *)
Lemma nonpositive_rate_no_points_witness :
  calculatePointsPreview
    (smart_config (num_of_Z 10) (num_of_Z 5) (num_of_Z 100) (num_of_Z 1000))
    (num_of_Z 100) "gold"
  = zero.
Proof.
  exact (nonpositive_rate_no_points
           (smart_config (num_of_Z 10) (num_of_Z 5) (num_of_Z 100)
                         (num_of_Z 1000))
           (num_of_Z 100) "gold" eq_refl eq_refl eq_refl eq_refl eq_refl).
Defined.


End CalculatorEdges.

(** ** The settings page *)

Section SettingsPage.

Lemma number_or_truthy (x d : number) :
  ToBoolean (VNumber d) = true -> ToBoolean (VNumber (number_or x d)) = true.
Proof.
  intros Hd. unfold number_or, or_else.
  destruct (ToBoolean (VNumber x)) eqn:Hx; simpl; assumption.
Qed.

Lemma number_or_falsy (x d : number) :
  ToBoolean (VNumber x) = false -> number_or x d = d.
Proof. intros Hx. unfold number_or, or_else. now rewrite Hx. Qed.

Lemma tier_lookup_set_tier_other (tm : TierMultipliers) (t t' : string)
    (v : number) :
  t' <> t -> tier_lookup (set_tier tm t v) t' = tier_lookup tm t'.
Proof.
  intros Hne. unfold tier_lookup, set_tier; simpl.
  destruct (String.eqb t' "bronze") eqn:E1.
  { apply String.eqb_eq in E1; subst t'.
    apply not_eq_sym, String.eqb_neq in Hne. now rewrite Hne. }
  destruct (String.eqb t' "silver") eqn:E2.
  { apply String.eqb_eq in E2; subst t'.
    apply not_eq_sym, String.eqb_neq in Hne. now rewrite Hne. }
  destruct (String.eqb t' "gold") eqn:E3.
  { apply String.eqb_eq in E3; subst t'.
    apply not_eq_sym, String.eqb_neq in Hne. now rewrite Hne. }
  destruct (String.eqb t' "platinum") eqn:E4.
  { apply String.eqb_eq in E4; subst t'.
    apply not_eq_sym, String.eqb_neq in Hne. now rewrite Hne. }
  reflexivity.
Qed.

Lemma tierMultiplier_with_tier (config : RewardEngineConfig) (tier : string)
    (v : number) :
  known_tier tier = true -> ToBoolean (VNumber v) = true ->
  tierMultiplier (with_tier_multiplier config tier v) tier = VNumber v.
Proof.
  intros Hk Hv. unfold tierMultiplier, with_tier_multiplier.
  cbn [tier_multipliers]. rewrite (tier_lookup_set_tier _ _ _ Hk).
  unfold or_else. now rewrite Hv.
Qed.

(** X8: choosing the other mode and then the original one again gives
    back the configuration unchanged; a mode click changes nothing but
    [mode], so both settings records are retained. *)
Theorem mode_toggle_round_trip (config : RewardEngineConfig) (m : Mode) :
  onModeClick (mode config) (onModeClick m (Some config)) = Some config
  /\ exists config',
       onModeClick m (Some config) = Some config'
       /\ mode config' = m
       /\ smart_settings config' = smart_settings config
       /\ manual_settings config' = manual_settings config
       /\ tier_multipliers config' = tier_multipliers config
       /\ max_points_per_order config' = max_points_per_order config.
Proof.
  split.
  - destruct config; reflexivity.
  - eexists. split; [reflexivity|]. repeat split.
Qed.

(** X9: editing the multiplier of one of the four tiers stores
    [parsed || 1] under that tier: [parsed] itself when it is neither 0
    nor [NaN], and 1 otherwise, so the stored number is never 0 or
    [NaN]; the calculator then uses exactly what is stored (its own
    [|| 1.0] is not taken), every other property read of
    [tier_multipliers] is unchanged, and so are the base points and the
    maximum. *)
Theorem tier_edit_then_lookup
    (config : RewardEngineConfig) (tier : string) (parsed : number) :
  known_tier tier = true ->
  exists config' stored,
    onTierMultiplierChange tier parsed (Some config) = Some config'
    /\ tier_lookup (tier_multipliers config') tier = VNumber stored
    /\ stored = (if is_zero parsed || is_nan parsed then num_of_Z 1
                 else parsed)
    /\ is_zero stored = false
    /\ is_nan stored = false
    /\ tierMultiplier config' tier
       = tier_lookup (tier_multipliers config') tier
    /\ tierMultiplier config' tier = VNumber (number_or parsed (num_of_Z 1))
    /\ ToBoolean (tierMultiplier config' tier) = true
    /\ (forall other, other <> tier ->
          tier_lookup (tier_multipliers config') other
          = tier_lookup (tier_multipliers config) other)
    /\ (forall orderAmount,
          basePoints config' orderAmount = basePoints config orderAmount)
    /\ max_points_per_order config' = max_points_per_order config.
Proof.
  intros Hk.
  exists (with_tier_multiplier config tier (number_or parsed (num_of_Z 1))),
         (number_or parsed (num_of_Z 1)).
  split; [reflexivity|].
  assert (Ht : ToBoolean (VNumber (number_or parsed (num_of_Z 1))) = true)
    by (apply number_or_truthy; reflexivity).
  assert (Hs : tier_lookup
                 (tier_multipliers
                    (with_tier_multiplier config tier
                       (number_or parsed (num_of_Z 1)))) tier
               = VNumber (number_or parsed (num_of_Z 1))).
  { cbn [tier_multipliers with_tier_multiplier].
    now apply tier_lookup_set_tier. }
  assert (Hl : tierMultiplier
                 (with_tier_multiplier config tier (number_or parsed (num_of_Z 1)))
                 tier
               = VNumber (number_or parsed (num_of_Z 1))).
  { now apply tierMultiplier_with_tier. }
  split; [exact Hs|].
  split.
  { unfold number_or, or_else. simpl ToBoolean.
    destruct (is_zero parsed || is_nan parsed); reflexivity. }
  simpl in Ht. apply negb_true_iff, orb_false_elim in Ht as [Hz Hn].
  split; [exact Hz|]. split; [exact Hn|].
  split; [now rewrite Hl, Hs|].
  split; [exact Hl|].
  split; [rewrite Hl; simpl; now rewrite Hz, Hn|].
  split; [|split; reflexivity].
  intros other Hne. cbn [tier_multipliers with_tier_multiplier].
  now apply tier_lookup_set_tier_other.
Qed.

(** Witness of X9: typing 0 for gold stores 1, and the preview is that
    of a multiplier of 1. *)
Lemma tier_edit_then_lookup_witness :
  exists config',
    onTierMultiplierChange "gold" zero (Some getDefaultConfig) = Some config'
    /\ tier_lookup (tier_multipliers config') "gold" = VNumber (num_of_Z 1)
    /\ getPreviewPoints (Some config') (num_of_Z 95) "gold" = num_of_Z 9.
Proof.
  destruct (tier_edit_then_lookup getDefaultConfig "gold" zero eq_refl)
    as (c & stored & Hc & Hs & Hv & _).
  exists c. split; [exact Hc|]. split.
  - rewrite Hs, Hv. reflexivity.
  - injection Hc as <-. reflexivity.
Defined.

(** X10: editing the maximum stores [parsed || 1000], which is never 0
    or [NaN]; the preview is then the old [finalPoints] clamped to the
    stored value, and it is [NaN] only if [finalPoints] is. *)
Theorem max_edit_then_preview
    (config : RewardEngineConfig) (parsed orderAmount : number)
    (customerTier : string) :
  let stored := number_or parsed (num_of_Z 1000) in
  let preview :=
    getPreviewPoints (onMaxPointsChange parsed (Some config))
                     orderAmount customerTier in
  is_zero stored = false
  /\ is_nan stored = false
  /\ preview
     = Math_min (Math_max (finalPoints config orderAmount customerTier) zero)
                stored
  /\ is_nan preview = is_nan (finalPoints config orderAmount customerTier).
Proof.
  intros stored preview.
  assert (Ht : ToBoolean (VNumber stored) = true)
    by (apply number_or_truthy; reflexivity).
  simpl in Ht. apply negb_true_iff, orb_false_elim in Ht as [Hz Hn].
  split; [exact Hz|]. split; [exact Hn|].
  assert (Hp : preview
     = Math_min (Math_max (finalPoints config orderAmount customerTier) zero)
                stored) by reflexivity.
  split; [exact Hp|].
  rewrite Hp, clamp_nan, Hn. apply orb_false_r.
Qed.

(** X11: editing the settings of the mode that is not selected never
    changes the preview. *)
Theorem inactive_edit_keeps_preview
    (config : RewardEngineConfig) (previewAmount : number) (previewTier : string) :
  (mode config = manual ->
   forall updates,
     getPreviewPoints (updateSmartSettings updates (Some config))
                      previewAmount previewTier
     = getPreviewPoints (Some config) previewAmount previewTier)
  /\ (mode config = smart ->
      forall updates,
        getPreviewPoints (updateManualSettings updates (Some config))
                         previewAmount previewTier
        = getPreviewPoints (Some config) previewAmount previewTier).
Proof.
  split; intros Hmode updates; simpl;
    unfold calculatePointsPreview, finalPoints, tierMultiplier, basePoints;
    simpl; now rewrite Hmode.
Qed.

Lemma inactive_edit_keeps_preview_witness :
  getPreviewPoints (onSellingPriceChange (num_of_Z 50) (Some getDefaultConfig))
                   (num_of_Z 95) "silver"
  = num_of_Z 11.
Proof.
  unfold onSellingPriceChange.
  rewrite (proj1 (inactive_edit_keeps_preview getDefaultConfig (num_of_Z 95)
                    "silver") eq_refl).
  reflexivity.
Defined.

(** X12: in smart mode, an empty or unparsable selling price ([parsed]
    is [NaN] or 0) is stored as 0, with cost price and percentage left
    as they were, and the preview drops to 0 for every amount when the
    multiplier applied is finite and [max_points_per_order >= 1]. *)
Theorem cleared_selling_price_zero_preview
    (config : RewardEngineConfig) (parsed previewAmount : number)
    (previewTier : string) :
  mode config = smart ->
  ToBoolean (VNumber parsed) = false ->
  is_finite (ToNumber (tierMultiplier config previewTier)) = true ->
  ge (max_points_per_order config) (num_of_Z 1) = true ->
  exists config',
    onSellingPriceChange parsed (Some config) = Some config'
    /\ selling_price (smart_settings config') = zero
    /\ cost_price (smart_settings config')
       = cost_price (smart_settings config)
    /\ profit_allocation_percent (smart_settings config')
       = profit_allocation_percent (smart_settings config)
    /\ basePoints config' previewAmount = zero
    /\ getPreviewPoints (Some config') previewAmount previewTier = zero.
Proof.
  intros Hmode Hp Hm Hmax.
  eexists. split; [reflexivity|].
  cbn [smart_settings with_smart_settings selling_price cost_price
       profit_allocation_percent spread].
  rewrite (number_or_falsy _ _ Hp).
  split; [reflexivity|]. split; [reflexivity|]. split; [reflexivity|].
  assert (Hb : forall c' : RewardEngineConfig,
             mode c' = smart -> selling_price (smart_settings c') = zero ->
             basePoints c' previewAmount = zero).
  { intros c' Hm' Hs'. unfold basePoints. now rewrite Hm', Hs'. }
  split.
  - apply Hb; [exact Hmode | reflexivity].
  - unfold getPreviewPoints, calculatePointsPreview, finalPoints.
    rewrite Hb; [|exact Hmode | reflexivity].
    apply clamp_zero.
    + apply Math_floor_zero, mul_zero_l; trivial.
    + apply (ge_positive (num_of_Z 1)); [reflexivity | assumption].
Qed.

(** Witness of X12: the smart example with the price field emptied. *)
Lemma cleared_selling_price_zero_preview_witness :
  exists config',
    onSellingPriceChange NaN
      (Some (smart_config (num_of_Z 5) (num_of_Z 10) (num_of_Z 20)
                          (num_of_Z 1000)))
    = Some config'
    /\ selling_price (smart_settings config') = zero
    /\ getPreviewPoints (Some config') (num_of_Z 100) "bronze" = zero.
Proof.
  destruct (cleared_selling_price_zero_preview
              (smart_config (num_of_Z 5) (num_of_Z 10) (num_of_Z 20)
                            (num_of_Z 1000))
              NaN (num_of_Z 100) "bronze" eq_refl eq_refl eq_refl eq_refl)
    as (c & Hc & Hs & _ & _ & _ & Hp).
  exists c. repeat split; assumption.
Defined.

(** X13: without a restaurant [fetchConfig] returns at once and leaves
    the page as it was, so [config] stays [null] on a fresh page.  With
    a restaurant and the service's [getRewardEngineConfig], which always
    resolves, it leaves a configuration and clears [loading]: the stored
    [reward_engine] when the query succeeded and the row has one, and the
    default configuration when the query failed or [data], [settings] or
    [reward_engine] is missing.  If the awaited call rejects, [config] is
    left as it was and an error message is set. *)
Theorem fetchConfig_fallback
    (restaurant : option Restaurant) (db : string -> QueryResult)
    (s : PageState) :
  (restaurant = None ->
   forall service, fetchConfig restaurant service s = s)
  /\ (forall r, restaurant = Some r ->
        let q := db (restaurant_id r) in
        let s' := fetchConfig restaurant (awaitRewardEngineConfig db) s in
        exists config,
          page_config s' = Some config
          /\ page_loading s' = false
          /\ page_error s' = page_error s
          /\ (error q = true -> config = getDefaultConfig)
          /\ (data q = None -> config = getDefaultConfig)
          /\ (forall row, data q = Some row -> settings row = None ->
                config = getDefaultConfig)
          /\ (forall row st, data q = Some row -> settings row = Some st ->
                reward_engine st = None -> config = getDefaultConfig)
          /\ (forall row st stored,
                error q = false -> data q = Some row ->
                settings row = Some st ->
                reward_engine st = Some stored -> config = stored))
  /\ (forall r message, restaurant = Some r ->
        let s' := fetchConfig restaurant (fun _ => Rejected message) s in
        page_config s' = page_config s
        /\ page_loading s' = false
        /\ page_error s' = message_or_default message
        /\ page_error s' <> "").
Proof.
  split; [|split].
  - intros -> service. reflexivity.
  - intros r -> q s'. subst s' q.
    unfold fetchConfig, awaitRewardEngineConfig, getRewardEngineConfig.
    destruct (db (restaurant_id r)) as [d e]. destruct e;
      [|destruct d as [[st]|]; [destruct st as [[re]|]; [destruct re|]|]];
      simpl; eexists;
      (split; [reflexivity|]);
      repeat split; intros;
      repeat (simpl in *;
              match goal with
              | H : Some _ = Some _ |- _ => injection H as <-
              end);
      simpl in *; try discriminate; reflexivity.
  - intros r message -> s'. subst s'. simpl. repeat split.
    unfold message_or_default. destruct message as [m|]; [|discriminate].
    destruct (String.eqb m "") eqn:E; [discriminate|].
    now apply String.eqb_neq.
Qed.

(** Witness of X13: a fresh page; no restaurant leaves [config] null, a
    restaurant whose row has no settings gets the default
    configuration. *)
Lemma fetchConfig_fallback_witness :
  page_config
    (fetchConfig None
       (awaitRewardEngineConfig
          (fun _ => {| data := Some {| settings := None |}; error := false |}))
       fresh_page)
  = None
  /\ page_config
       (fetchConfig (Some {| restaurant_id := "r1" |})
          (awaitRewardEngineConfig
             (fun _ => {| data := Some {| settings := None |};
                          error := false |}))
          fresh_page)
     = Some getDefaultConfig.
Proof.
  destruct (fetchConfig_fallback None
              (fun _ => {| data := Some {| settings := None |};
                           error := false |}) fresh_page) as (H0 & _).
  destruct (fetchConfig_fallback (Some {| restaurant_id := "r1" |})
              (fun _ => {| data := Some {| settings := None |};
                           error := false |}) fresh_page) as (_ & H1 & _).
  split.
  - now rewrite (H0 eq_refl).
  - destruct (H1 _ eq_refl) as (c & Hc & _ & _ & _ & _ & Hm & _).
    rewrite Hc. f_equal. exact (Hm _ eq_refl eq_refl).
Defined.

End SettingsPage.

(** ** The analytics service *)

Section Analytics.

Example analytics_arithmetic :
  lit_0_3 = div (num_of_Z 3) (num_of_Z 10)
  /\ add (num_of_Z 40) (num_of_Z 2) = num_of_Z 42
  /\ add Infinity (S754_infinity true) = NaN
  /\ Math_abs (num_of_Z (-50)) = num_of_Z 50
  /\ Math_ceil (dyadic 1 (-1)) = num_of_Z 1
  /\ Math_ceil (dyadic (-1) (-1)) = S754_zero true
  /\ Math_ceil (num_of_Z 3) = num_of_Z 3
  /\ Math_max (num_of_Z 1)
              (Math_ceil (div (num_of_Z (7 * 86400000))
                              (num_of_Z (1000 * 60 * 60 * 24 * 30))))
     = num_of_Z 1.
Proof. vm_compute. repeat split. Qed.

(** One customer who spent 1000 over two visits, 100 points issued and
    50 redeemed, default settings: reward cost 50, cost of goods 300, net
    profit 650, ROI 1300 percent. *)
Example roi_metrics_example :
  let m :=
    getLoyaltyROIMetrics "r1" zero (num_of_Z (90 * 86400000))
      (Some {| restaurant := None;
               customers :=
                 Some [ {| total_points := num_of_Z 50;
                           lifetime_points := num_of_Z 100;
                           total_spent := num_of_Z 1000;
                           visit_count := num_of_Z 2 |} ];
               transactions :=
                 Some [ {| points := num_of_Z 100 |};
                        {| points := num_of_Z (-50) |} ] |}) in
  totalPointsIssued m = num_of_Z 100
  /\ totalPointsRedeemed m = num_of_Z 50
  /\ rewardCost m = num_of_Z 50
  /\ netRevenue m = num_of_Z 950
  /\ cogs m = num_of_Z 300
  /\ netProfit m = num_of_Z 650
  /\ roi m = num_of_Z 1300
  /\ roiStatus m = high_performing
  /\ roiSummaryText m = EarnPerAED (num_of_Z 13)
  /\ repeatPurchaseRate m = num_of_Z 100
  /\ averageOrderValue m = num_of_Z 500
  /\ totalRewardLiability m = num_of_Z 50.
Proof. vm_compute. repeat split. Qed.


Lemma mul_zero_not_positive (x y : number) :
  is_zero x = true -> gt (mul x y) zero = false.
Proof.
  destruct x as [sx| | |]; try discriminate; intros _.
  destruct y as [sy|sy| |sy my ey]; try reflexivity;
    destruct (xorb sx sy) eqn:E; simpl; rewrite E; reflexivity.
Qed.

Lemma filter_none {A : Type} (f : A -> bool) (l : list A) :
  forallb (fun a => negb (f a)) l = true -> filter f l = [].
Proof.
  induction l as [|a l IH]; simpl; [reflexivity|].
  intros H. apply andb_prop in H as [Ha Hl].
  apply negb_true_iff in Ha. rewrite Ha. now apply IH.
Qed.

(** X14: when no transaction has negative points (nothing was
    redeemed), the ROI is reported as 0, the status is "profitable" and
    the summary says that nothing was redeemed yet, whatever the revenue
    and the settings are. *)
Theorem nothing_redeemed_roi
    (restaurantId : string) (start_time end_time : number) (db : Fetched) :
  String.eqb restaurantId "" = false ->
  nothing_redeemed (transactions db) = true ->
  let m := getLoyaltyROIMetrics restaurantId start_time end_time (Some db) in
  totalPointsRedeemed m = zero
  /\ roi m = zero
  /\ roiStatus m = profitable
  /\ roiSummaryText m = NoRedemptionsYet.
Proof.
  intros Hid Hts m. subst m. unfold getLoyaltyROIMetrics. rewrite Hid.
  assert (Hred :
    value_or
      (opt_chain (transactions db)
         (fun ts => sum_by (fun t => Math_abs (points t))
                      (filter (fun t => lt (points t) zero) ts)))
      zero = zero).
  { destruct (transactions db) as [ts|]; [|reflexivity].
    simpl. now rewrite (filter_none _ _ Hts). }
  unfold computeROIMetrics.
  cbn [totalPointsRedeemed roi roiStatus roiSummaryText].
  rewrite Hred.
  rewrite (mul_zero_not_positive zero _ eq_refl).
  repeat split.
Qed.

(** Witness of X14: one customer who spent 400 and earned 40 points. *)
Lemma nothing_redeemed_roi_witness :
  let m :=
    getLoyaltyROIMetrics "r1" zero (num_of_Z 86400000)
      (Some {| restaurant := None;
               customers :=
                 Some [ {| total_points := num_of_Z 40;
                           lifetime_points := num_of_Z 40;
                           total_spent := num_of_Z 400;
                           visit_count := num_of_Z 3 |} ];
               transactions := Some [ {| points := num_of_Z 40 |} ] |}) in
  roi m = zero /\ roiStatus m = profitable /\ grossRevenue m = num_of_Z 400.
Proof.
  destruct (nothing_redeemed_roi "r1" zero (num_of_Z 86400000)
      {| restaurant := None;
         customers :=
           Some [ {| total_points := num_of_Z 40;
                     lifetime_points := num_of_Z 40;
                     total_spent := num_of_Z 400;
                     visit_count := num_of_Z 3 |} ];
         transactions := Some [ {| points := num_of_Z 40 |} ] |}
      eq_refl eq_refl) as (_ & Hr & Hs & _).
  split; [exact Hr|]. split; [exact Hs|]. reflexivity.
Defined.

Lemma add_not_negative (x y : number) :
  negative_number x = false -> positive_number y = true ->
  negative_number (add x y) = false.
Proof.
  destruct y as [sy|[]| |[] my ey]; try discriminate;
    destruct x as [sx|[]| |[] mx ex]; try discriminate; intros _ _;
    try reflexivity.
  unfold add, SFadd. cbn [cond_Zopp]. 
  unfold binary_normalize. simpl Z.add. unfold binary_round.
  destruct (shl_align _ _ _) as [mz ez]. apply binary_round_aux_false.
Qed.

Lemma sum_not_negative {A : Type} (f : A -> number) (l : list A) :
  (forall a, In a l -> positive_number (f a) = true) ->
  forall acc, negative_number acc = false ->
  negative_number (fold_left (fun sum a => add sum (f a)) l acc) = false.
Proof.
  induction l as [|a l IH]; intros Hl acc Hacc; simpl; [assumption|].
  apply IH.
  - intros b Hb. apply Hl. now right.
  - apply add_not_negative; [assumption | apply Hl; now left].
Qed.

Lemma value_or_not_negative (x : number) :
  negative_number x = false -> le zero (value_or (VNumber x) zero) = true.
Proof. by_shape x. Qed.

Lemma value_or_chain_not_nan {A : Type} (l : option (list A))
    (f : list A -> number) :
  is_nan (value_or (opt_chain l f) zero) = false.
Proof.
  destruct l as [l|]; [|reflexivity]. simpl.
  destruct (f l) as [s|s| |s m e]; reflexivity.
Qed.

Lemma number_or_not_nan (x : number) : is_nan (number_or x zero) = false.
Proof. destruct x as [s|s| |s m e]; reflexivity. Qed.

Lemma abs_negative_positive (x : number) :
  lt x zero = true -> positive_number (Math_abs x) = true.
Proof. by_shape x. Qed.

(** X15: whatever rows the queries return, the totals of points issued
    and redeemed are never negative and never [NaN], and gross revenue
    and the reward liability are never [NaN]. *)
Theorem point_totals_not_negative
    (restaurantId : string) (start_time end_time : number)
    (fetched : option Fetched) :
  let m := getLoyaltyROIMetrics restaurantId start_time end_time fetched in
  le zero (totalPointsIssued m) = true
  /\ le zero (totalPointsRedeemed m) = true
  /\ is_nan (grossRevenue m) = false
  /\ is_nan (totalRewardLiability m) = false.
Proof.
  intros m. subst m. unfold getLoyaltyROIMetrics.
  destruct (String.eqb restaurantId ""); [repeat split|].
  destruct fetched as [db|]; [|repeat split].
  unfold computeROIMetrics.
  cbn [totalPointsIssued totalPointsRedeemed grossRevenue totalRewardLiability].
  split; [|split; [|split]].
  - destruct (transactions db) as [ts|]; [|reflexivity].
    apply value_or_not_negative. unfold sum_by.
    apply sum_not_negative; [|reflexivity].
    intros t Ht. apply filter_In in Ht as [_ Ht].
    now rewrite gt_zero_positive in Ht.
  - destruct (transactions db) as [ts|]; [|reflexivity].
    apply value_or_not_negative. unfold sum_by.
    apply sum_not_negative; [|reflexivity].
    intros t Ht. apply filter_In in Ht as [_ Ht].
    now apply abs_negative_positive.
  - apply value_or_chain_not_nan.
  - apply number_or_not_nan.
Qed.



(** X17: a transaction whose points are neither positive nor negative
    (0, or [NaN]) changes no metric, wherever it stands among the
    rows. *)
Theorem neutral_transaction_ignored
    (restaurantId : string) (start_time end_time : number)
    (settings : option AnalyticsSettings) (cs : option (list Customer))
    (before after : list Transaction) (t : Transaction) :
  gt (points t) zero = false ->
  lt (points t) zero = false ->
  getLoyaltyROIMetrics restaurantId start_time end_time
    (Some {| restaurant := settings; customers := cs;
             transactions := Some (before ++ t :: after)%list |})
  = getLoyaltyROIMetrics restaurantId start_time end_time
      (Some {| restaurant := settings; customers := cs;
               transactions := Some (before ++ after)%list |}).
Proof.
  intros Hgt Hlt. unfold getLoyaltyROIMetrics, computeROIMetrics.
  cbn [restaurant customers transactions opt_chain].
  rewrite !filter_app. cbn [filter]. now rewrite Hgt, Hlt.
Qed.

Lemma neutral_transaction_ignored_witness :
  getLoyaltyROIMetrics "r1" zero (num_of_Z 86400000)
    (Some {| restaurant := None; customers := None;
             transactions :=
               Some ([ {| points := num_of_Z 40 |} ]
                     ++ {| points := zero |}
                        :: [ {| points := num_of_Z (-10) |} ])%list |})
  = getLoyaltyROIMetrics "r1" zero (num_of_Z 86400000)
      (Some {| restaurant := None; customers := None;
               transactions :=
                 Some ([ {| points := num_of_Z 40 |} ]
                       ++ [ {| points := num_of_Z (-10) |} ])%list |}).
Proof.
  exact (neutral_transaction_ignored "r1" zero (num_of_Z 86400000) None None
           [ {| points := num_of_Z 40 |} ] [ {| points := num_of_Z (-10) |} ]
           {| points := zero |} eq_refl eq_refl).
Defined.

(** X18: [getCustomerBehaviorMetrics] returns the all-zero metrics when
    the restaurant id is empty, when a query throws, and when the query
    returns [null] or no rows. *)
Theorem behavior_metrics_empty
    (restaurantId : string) (fetched : option (option (list Customer))) :
  String.eqb restaurantId "" = true
  \/ fetched = None
  \/ (exists rows, fetched = Some rows /\ no_rows rows = true) ->
  getCustomerBehaviorMetrics restaurantId fetched = emptyBehaviorMetrics.
Proof.
  unfold getCustomerBehaviorMetrics.
  intros [-> | [-> | (rows & -> & Hrows)]].
  - reflexivity.
  - now destruct (String.eqb restaurantId "").
  - destruct (String.eqb restaurantId ""); [reflexivity|].
    destruct rows as [[|c cs]|]; try discriminate; reflexivity.
Qed.

Lemma behavior_metrics_empty_witness :
  getCustomerBehaviorMetrics "r1" (Some (Some [])) = emptyBehaviorMetrics.
Proof.
  apply behavior_metrics_empty. right. right.
  exists (Some []). split; reflexivity.
Defined.

End Analytics.

Section Counting.

Lemma digits2_pos_size (p : positive) : digits2_pos p = Pos.size p.
Proof. induction p; simpl; congruence. Qed.

Lemma digits2_pos_le_53 (p : positive) :
  Z.pos p < 2 ^ 53 -> Z.pos (digits2_pos p) <= 53.
Proof.
  intros Hp. rewrite digits2_pos_size.
  pose proof (Pos.size_le p) as Hs.
  assert (H2 : 2 ^ Z.pos (Pos.size p) <= 2 * Z.pos p).
  { rewrite <- Pos2Z.inj_pow. change (2 * Z.pos p) with (Z.pos p~0). 
    now apply Pos2Z.pos_le_pos. }
  destruct (Z_le_gt_dec (Z.pos (Pos.size p)) 53) as [Hle|Hgt]; [assumption|].
  exfalso.
  assert (2 ^ 54 <= 2 ^ Z.pos (Pos.size p)) by (apply Z.pow_le_mono_r; lia).
  change (2 ^ 54) with (2 * 2 ^ 53) in H. lia.
Qed.

(** A positive integer below [2^53] is a finite positive binary64. *)
Lemma num_of_Z_small (p : positive) :
  Z.pos p < 2 ^ 53 -> positive_number (num_of_Z (Z.pos p)) = true
                      /\ is_finite (num_of_Z (Z.pos p)) = true.
Proof.
  intros Hp. apply digits2_pos_le_53 in Hp.
  unfold num_of_Z, binary_normalize, binary_round.
  assert (Hf : fexp prec emax (Z.pos (digits2_pos p) + 0)
               = Z.pos (digits2_pos p) - 53).
  { unfold fexp, emin, prec, emax. lia. }
  rewrite Hf. unfold shl_align.
  destruct (Z.pos (digits2_pos p) - 53 - 0) as [|k|k] eqn:Hk; try lia.
  - rewrite binary_round_aux_exact; [split; reflexivity| |unfold emax, prec; lia].
    unfold Zdigits2, fexp, emin, prec, emax. lia.
  - rewrite binary_round_aux_exact; [split; reflexivity| |unfold emax, prec; lia].
    unfold Zdigits2. rewrite digits2_pos_iter.
    unfold fexp, emin, prec, emax. lia.
Qed.

(** [l.length || 0] is [l.length]. *)
Lemma count_or_zero {A : Type} (l : list A) :
  Z.of_nat (List.length l) < 2 ^ 32 ->
  value_or (VNumber (count l)) zero = count l.
Proof.
  intros Hl. unfold count.
  destruct (Z.of_nat (List.length l)) as [|p|p] eqn:E; try lia.
  - reflexivity.
  - destruct (num_of_Z_small p) as [Hpos _].
    { assert (2 ^ 32 < 2 ^ 53) by reflexivity. lia. }
    destruct (num_of_Z (Z.pos p)) as [s|[]| |[] m e]; try discriminate;
      reflexivity.
Qed.

Lemma first_visit_not_returning (c : Customer) :
  first_visit c = true -> returning c = false.
Proof.
  unfold first_visit, returning, gt, SFeqb, SFltb.
  rewrite (SFcompare_antisym (visit_count c) (num_of_Z 1)).
  destruct (SFcompare (visit_count c) (num_of_Z 1)) as [[]|];
    simpl; congruence.
Qed.

Lemma disjoint_filters_length {A : Type} (f g : A -> bool) (l : list A) :
  (forall a, f a = true -> g a = false) ->
  (List.length (filter f l) + List.length (filter g l) <= List.length l)%nat.
Proof.
  intros Hfg. induction l as [|a l IH]; simpl; [lia|].
  destruct (f a) eqn:Hf.
  - rewrite (Hfg a Hf). simpl. lia.
  - destruct (g a); simpl; lia.
Qed.

Lemma filter_length_le {A : Type} (f : A -> bool) (l : list A) :
  (List.length (filter f l) <= List.length l)%nat.
Proof.
  induction l as [|a l IH]; simpl; [lia|]. destruct (f a); simpl; lia.
Qed.

(** X19: the counts of new customers ([visit_count === 1]) and of
    returning customers ([visit_count > 1]) are the sizes of two disjoint
    groups: no customer is counted twice, and together they never exceed
    the number of rows. *)
Theorem new_and_returning_disjoint
    (restaurantId : string) (cs : list Customer) :
  String.eqb restaurantId "" = false ->
  Z.of_nat (List.length cs) < 2 ^ 32 ->
  let m := getCustomerBehaviorMetrics restaurantId (Some (Some cs)) in
  (forall c, first_visit c = true -> returning c = false)
  /\ exists n r : nat,
       newCustomers m = num_of_Z (Z.of_nat n)
       /\ returningCustomers m = num_of_Z (Z.of_nat r)
       /\ (n + r <= List.length cs)%nat.
Proof.
  intros Hid Hlen m. subst m. split; [exact first_visit_not_returning|].
  exists (List.length (filter first_visit cs)),
         (List.length (filter returning cs)).
  unfold getCustomerBehaviorMetrics. rewrite Hid.
  cbn [newCustomers returningCustomers opt_chain].
  pose proof (filter_length_le first_visit cs).
  pose proof (filter_length_le returning cs).
  split; [|split].
  - apply count_or_zero. lia.
  - apply count_or_zero. lia.
  - apply disjoint_filters_length, first_visit_not_returning.
Qed.

Lemma new_and_returning_disjoint_witness :
  let m :=
    getCustomerBehaviorMetrics "r1"
      (Some (Some [ {| total_points := zero; lifetime_points := zero;
                       total_spent := zero; visit_count := num_of_Z 1 |};
                    {| total_points := zero; lifetime_points := zero;
                       total_spent := zero; visit_count := zero |};
                    {| total_points := zero; lifetime_points := zero;
                       total_spent := zero; visit_count := num_of_Z 4 |} ])) in
  newCustomers m = num_of_Z 1 /\ returningCustomers m = num_of_Z 1.
Proof.
  destruct (new_and_returning_disjoint "r1"
      [ {| total_points := zero; lifetime_points := zero;
           total_spent := zero; visit_count := num_of_Z 1 |};
        {| total_points := zero; lifetime_points := zero;
           total_spent := zero; visit_count := zero |};
        {| total_points := zero; lifetime_points := zero;
           total_spent := zero; visit_count := num_of_Z 4 |} ]
      eq_refl eq_refl) as (_ & n & r & _).
  split; reflexivity.
Defined.

End Counting.
